(** * TalkHands Express: the state machine of [src/pages/Index.tsx]

    A shallow embedding of the [Index] component: its React state, its refs,
    the part of the browser it talks to (camera streams, the speech queue,
    timers, the console), and every handler of the component written in a
    small monad of JavaScript completions. *)

From Stdlib Require Import List String Ascii Bool Arith NArith ZArith QArith Lia.
From Stdlib Require Import DecimalString DecimalN DecimalPos.
Import ListNotations.

Set Implicit Arguments.

(** ** JavaScript strings

    A JavaScript string is a sequence of UTF-16 code units.  String literals
    of the source are ASCII and are written [js "..."]. *)

Definition JSString := list N.

Definition js (s : string) : JSString :=
  map N_of_ascii (list_ascii_of_string s).

(** [WhiteSpace] and [LineTerminator] of ECMAScript, which is what
    [String.prototype.trim] strips. *)
Definition isWhiteSpace (c : N) : bool :=
  ((c =? 0x09) || (c =? 0x0A) || (c =? 0x0B) || (c =? 0x0C) || (c =? 0x0D)
   || (c =? 0x20) || (c =? 0xA0) || (c =? 0x1680)
   || ((0x2000 <=? c) && (c <=? 0x200A))
   || (c =? 0x2028) || (c =? 0x2029) || (c =? 0x202F) || (c =? 0x205F)
   || (c =? 0x3000) || (c =? 0xFEFF))%N.

Fixpoint trimStart (s : JSString) : JSString :=
  match s with
  | c :: s' => if isWhiteSpace c then trimStart s' else s
  | [] => []
  end.

Definition trimEnd (s : JSString) : JSString := rev (trimStart (rev s)).

Definition trim (s : JSString) : JSString := trimEnd (trimStart s).

(** Truthiness of a string: every string but the empty one. *)
Definition truthy (s : JSString) : bool :=
  match s with [] => false | _ :: _ => true end.

(** Truthiness of a value that is a string or [null]. *)
Definition truthy_opt (s : option JSString) : bool :=
  match s with Some t => truthy t | None => false end.

(** A number printed inside a template literal (non-negative integers only:
    element dimensions and [Date.now()]). *)
Definition numToString (n : N) : JSString :=
  js (NilZero.string_of_uint (N.to_uint n)).

(** ** React state of the component *)

Inductive Mode := camera | text.

Definition Mode_eqb (a b : Mode) : bool :=
  match a, b with camera, camera | text, text => true | _, _ => false end.

(** [ttsSettings]; the numbers are only stored and copied, never computed
    with, and are kept as rationals. *)
Record TtsSettings := {
  language : JSString;
  pitch : Q;
  rate : Q;
  volume : Q
}.

Record State := {
  hasCameraPermission : bool;
  translatedText : JSString;
  inputText : JSString;
  capturedImage : option JSString;
  isProcessing : bool;
  translateMode : Mode;
  ttsSettings : TtsSettings;
  showSettings : bool;
  isSpeaking : bool
}.

Definition LANGUAGE_OPTIONS : list (JSString * JSString) :=
  [ (js "en", js "English"); (js "es", js "Spanish"); (js "fr", js "French");
    (js "de", js "German"); (js "it", js "Italian") ].

(** The [useState] initial values. *)
Definition initialState : State := {|
  hasCameraPermission := false;
  translatedText := [];
  inputText := [];
  capturedImage := None;
  isProcessing := false;
  translateMode := camera;
  ttsSettings := {| language := js "en"; pitch := 1; rate := 3 # 4; volume := 1 |};
  showSettings := false;
  isSpeaking := false
|}.

(** ** Refs and host environment *)

Definition StreamId := N.

(** A thrown value: the name of the error. *)
Definition Exn := JSString.

Record VideoEl := {
  srcObject : option StreamId;
  videoWidth : N;
  videoHeight : N
}.

Record CanvasEl := {
  width : N;
  height : N
}.

Record Utterance := {
  u_text : JSString;
  u_lang : JSString;
  u_pitch : Q;
  u_rate : Q;
  u_volume : Q
}.

Inductive ConsoleEntry :=
| ConsoleLog (msg : JSString)
| ConsoleError (msg : JSString) (arg : option Exn).

(** The points at which an [async] function of the component is suspended:
    on a timer, or on the promise of [getUserMedia]. *)
Inductive TimerContinuation :=
| K_captureImage_afterDelay.

Inductive MediaContinuation :=
| K_setupCamera_afterGetUserMedia
| K_requestCameraPermission_afterGetUserMedia.

Record Env := {
  videoRef : option VideoEl;            (* videoRef.current *)
  canvasRef : option CanvasEl;          (* canvasRef.current *)
  streamRef : option StreamId;          (* streamRef.current *)
  liveStreams : list StreamId;          (* acquired streams whose tracks run *)
  speechSynthesis : option (list Utterance);
      (* [None]: 'speechSynthesis' in window is false; otherwise the queue *)
  cancelled : list Utterance;
      (* removed from the queue by cancel(), error event not yet delivered *)
  timers : list (N * TimerContinuation);  (* pending setTimeout, delay in ms *)
  pendingMedia : list MediaContinuation;  (* getUserMedia promises not settled *)
  console : list ConsoleEntry;
  alerts : list JSString;
  downloads : list (JSString * JSString)  (* href, file name *)
}.

Record World := { st : State; env : Env }.

(** What the canvas does during one capture: [getContext('2d')] may answer
    [null], [drawImage] and [toDataURL] may throw. *)
Record CanvasHost := {
  getContext2d : bool;
  drawImage_throws : option Exn;
  toDataURL_result : Exn + JSString
}.

(** ** Field updates *)

Definition set_hasCameraPermission (b : bool) (s : State) : State :=
  {| hasCameraPermission := b; translatedText := translatedText s;
     inputText := inputText s; capturedImage := capturedImage s;
     isProcessing := isProcessing s; translateMode := translateMode s;
     ttsSettings := ttsSettings s; showSettings := showSettings s;
     isSpeaking := isSpeaking s |}.

Definition set_translatedText (t : JSString) (s : State) : State :=
  {| hasCameraPermission := hasCameraPermission s; translatedText := t;
     inputText := inputText s; capturedImage := capturedImage s;
     isProcessing := isProcessing s; translateMode := translateMode s;
     ttsSettings := ttsSettings s; showSettings := showSettings s;
     isSpeaking := isSpeaking s |}.

Definition set_inputText (t : JSString) (s : State) : State :=
  {| hasCameraPermission := hasCameraPermission s;
     translatedText := translatedText s;
     inputText := t; capturedImage := capturedImage s;
     isProcessing := isProcessing s; translateMode := translateMode s;
     ttsSettings := ttsSettings s; showSettings := showSettings s;
     isSpeaking := isSpeaking s |}.

Definition set_capturedImage (i : option JSString) (s : State) : State :=
  {| hasCameraPermission := hasCameraPermission s;
     translatedText := translatedText s;
     inputText := inputText s; capturedImage := i;
     isProcessing := isProcessing s; translateMode := translateMode s;
     ttsSettings := ttsSettings s; showSettings := showSettings s;
     isSpeaking := isSpeaking s |}.

Definition set_isProcessing (b : bool) (s : State) : State :=
  {| hasCameraPermission := hasCameraPermission s;
     translatedText := translatedText s;
     inputText := inputText s; capturedImage := capturedImage s;
     isProcessing := b; translateMode := translateMode s;
     ttsSettings := ttsSettings s; showSettings := showSettings s;
     isSpeaking := isSpeaking s |}.

Definition set_translateMode (m : Mode) (s : State) : State :=
  {| hasCameraPermission := hasCameraPermission s;
     translatedText := translatedText s;
     inputText := inputText s; capturedImage := capturedImage s;
     isProcessing := isProcessing s; translateMode := m;
     ttsSettings := ttsSettings s; showSettings := showSettings s;
     isSpeaking := isSpeaking s |}.

Definition set_ttsSettings (c : TtsSettings) (s : State) : State :=
  {| hasCameraPermission := hasCameraPermission s;
     translatedText := translatedText s;
     inputText := inputText s; capturedImage := capturedImage s;
     isProcessing := isProcessing s; translateMode := translateMode s;
     ttsSettings := c; showSettings := showSettings s;
     isSpeaking := isSpeaking s |}.

Definition set_showSettings (b : bool) (s : State) : State :=
  {| hasCameraPermission := hasCameraPermission s;
     translatedText := translatedText s;
     inputText := inputText s; capturedImage := capturedImage s;
     isProcessing := isProcessing s; translateMode := translateMode s;
     ttsSettings := ttsSettings s; showSettings := b;
     isSpeaking := isSpeaking s |}.

Definition set_isSpeaking (b : bool) (s : State) : State :=
  {| hasCameraPermission := hasCameraPermission s;
     translatedText := translatedText s;
     inputText := inputText s; capturedImage := capturedImage s;
     isProcessing := isProcessing s; translateMode := translateMode s;
     ttsSettings := ttsSettings s; showSettings := showSettings s;
     isSpeaking := b |}.

Definition set_videoRef (v : option VideoEl) (e : Env) : Env :=
  {| videoRef := v; canvasRef := canvasRef e; streamRef := streamRef e;
     liveStreams := liveStreams e; speechSynthesis := speechSynthesis e;
     cancelled := cancelled e;
     timers := timers e; pendingMedia := pendingMedia e; console := console e;
     alerts := alerts e; downloads := downloads e |}.

Definition set_canvasRef (c : option CanvasEl) (e : Env) : Env :=
  {| videoRef := videoRef e; canvasRef := c; streamRef := streamRef e;
     liveStreams := liveStreams e; speechSynthesis := speechSynthesis e;
     cancelled := cancelled e;
     timers := timers e; pendingMedia := pendingMedia e; console := console e;
     alerts := alerts e; downloads := downloads e |}.

Definition set_streamRef (r : option StreamId) (e : Env) : Env :=
  {| videoRef := videoRef e; canvasRef := canvasRef e; streamRef := r;
     liveStreams := liveStreams e; speechSynthesis := speechSynthesis e;
     cancelled := cancelled e;
     timers := timers e; pendingMedia := pendingMedia e; console := console e;
     alerts := alerts e; downloads := downloads e |}.

Definition set_liveStreams (l : list StreamId) (e : Env) : Env :=
  {| videoRef := videoRef e; canvasRef := canvasRef e; streamRef := streamRef e;
     liveStreams := l; speechSynthesis := speechSynthesis e;
     cancelled := cancelled e;
     timers := timers e; pendingMedia := pendingMedia e; console := console e;
     alerts := alerts e; downloads := downloads e |}.

Definition set_speechSynthesis (q : option (list Utterance)) (e : Env) : Env :=
  {| videoRef := videoRef e; canvasRef := canvasRef e; streamRef := streamRef e;
     liveStreams := liveStreams e; speechSynthesis := q;
     cancelled := cancelled e;
     timers := timers e; pendingMedia := pendingMedia e; console := console e;
     alerts := alerts e; downloads := downloads e |}.

Definition set_cancelled (c : list Utterance) (e : Env) : Env :=
  {| videoRef := videoRef e; canvasRef := canvasRef e; streamRef := streamRef e;
     liveStreams := liveStreams e; speechSynthesis := speechSynthesis e;
     cancelled := c;
     timers := timers e; pendingMedia := pendingMedia e; console := console e;
     alerts := alerts e; downloads := downloads e |}.

Definition set_timers (t : list (N * TimerContinuation)) (e : Env) : Env :=
  {| videoRef := videoRef e; canvasRef := canvasRef e; streamRef := streamRef e;
     liveStreams := liveStreams e; speechSynthesis := speechSynthesis e;
     cancelled := cancelled e;
     timers := t; pendingMedia := pendingMedia e; console := console e;
     alerts := alerts e; downloads := downloads e |}.

Definition set_pendingMedia (p : list MediaContinuation) (e : Env) : Env :=
  {| videoRef := videoRef e; canvasRef := canvasRef e; streamRef := streamRef e;
     liveStreams := liveStreams e; speechSynthesis := speechSynthesis e;
     cancelled := cancelled e;
     timers := timers e; pendingMedia := p; console := console e;
     alerts := alerts e; downloads := downloads e |}.

Definition set_console (c : list ConsoleEntry) (e : Env) : Env :=
  {| videoRef := videoRef e; canvasRef := canvasRef e; streamRef := streamRef e;
     liveStreams := liveStreams e; speechSynthesis := speechSynthesis e;
     cancelled := cancelled e;
     timers := timers e; pendingMedia := pendingMedia e; console := c;
     alerts := alerts e; downloads := downloads e |}.

Definition set_alerts (a : list JSString) (e : Env) : Env :=
  {| videoRef := videoRef e; canvasRef := canvasRef e; streamRef := streamRef e;
     liveStreams := liveStreams e; speechSynthesis := speechSynthesis e;
     cancelled := cancelled e;
     timers := timers e; pendingMedia := pendingMedia e; console := console e;
     alerts := a; downloads := downloads e |}.

Definition set_downloads (d : list (JSString * JSString)) (e : Env) : Env :=
  {| videoRef := videoRef e; canvasRef := canvasRef e; streamRef := streamRef e;
     liveStreams := liveStreams e; speechSynthesis := speechSynthesis e;
     cancelled := cancelled e;
     timers := timers e; pendingMedia := pendingMedia e; console := console e;
     alerts := alerts e; downloads := d |}.

(** ** The monad of handlers

    A handler runs on the [World] and completes normally, by [return], or by
    throwing. *)

Inductive Completion (A : Type) : Type :=
| Normal (a : A)
| Return
| Throw (e : Exn).

Arguments Return {A}.
Arguments Throw {A} e.

Definition JS (A : Type) : Type := World -> Completion A * World.

Definition ret {A} (a : A) : JS A := fun w => (Normal a, w).

Definition bind {A B} (m : JS A) (k : A -> JS B) : JS B :=
  fun w =>
    match m w with
    | (Normal a, w') => k a w'
    | (Return, w') => (Return, w')
    | (Throw e, w') => (Throw e, w')
    end.

Declare Scope js_scope.
Delimit Scope js_scope with js.
Notation "x <- m ;; k" := (bind m (fun x => k))
  (at level 61, m at next level, right associativity) : js_scope.
Notation "m ;; k" := (bind m (fun _ => k))
  (at level 61, right associativity) : js_scope.
Open Scope js_scope.

(** [return;] *)
Definition return_ {A} : JS A := fun w => (Return, w).

(** [throw e] *)
Definition throw {A} (e : Exn) : JS A := fun w => (Throw e, w).

(** [try { body } catch (error) { handler }] *)
Definition try_catch {A} (body : JS A) (handler : Exn -> JS A) : JS A :=
  fun w =>
    match body w with
    | (Throw e, w') => handler e w'
    | r => r
    end.

(** A call of a function whose body is [m]: a [return] ends the call. *)
Definition call (m : JS unit) : JS unit :=
  fun w =>
    match m w with
    | (Return, w') => (Normal tt, w')
    | r => r
    end.

(** The world a call leaves behind. *)
Definition exec (m : JS unit) (w : World) : World := snd (call m w).

Definition gets {A} (f : State -> A) : JS A := fun w => (Normal (f (st w)), w).
Definition gets_env {A} (f : Env -> A) : JS A := fun w => (Normal (f (env w)), w).

Definition modify (f : State -> State) : JS unit :=
  fun w => (Normal tt, {| st := f (st w); env := env w |}).
Definition modify_env (f : Env -> Env) : JS unit :=
  fun w => (Normal tt, {| st := st w; env := f (env w) |}).

Definition when (b : bool) (m : JS unit) : JS unit := if b then m else ret tt.

(** ** State setters and host calls

    A [useState] setter is modelled as an immediate update: no handler of the
    component reads a state variable after it has set it, so the batching of
    React is not observable here. *)

Definition setHasCameraPermission (b : bool) : JS unit := modify (set_hasCameraPermission b).
Definition setTranslatedText (t : JSString) : JS unit := modify (set_translatedText t).
Definition setInputText (t : JSString) : JS unit := modify (set_inputText t).
Definition setCapturedImage (i : option JSString) : JS unit := modify (set_capturedImage i).
Definition setIsProcessing (b : bool) : JS unit := modify (set_isProcessing b).
Definition setTranslateMode (m : Mode) : JS unit := modify (set_translateMode m).
Definition setShowSettings (b : bool) : JS unit := modify (set_showSettings b).
Definition setIsSpeaking (b : bool) : JS unit := modify (set_isSpeaking b).

Definition TypeError : Exn := js "TypeError".

Definition console_log (msg : JSString) : JS unit :=
  modify_env (fun e => set_console (console e ++ [ConsoleLog msg]) e).

Definition console_error (msg : JSString) (arg : option Exn) : JS unit :=
  modify_env (fun e => set_console (console e ++ [ConsoleError msg arg]) e).

Definition alert (msg : JSString) : JS unit :=
  modify_env (fun e => set_alerts (alerts e ++ [msg]) e).

(** ['speechSynthesis' in window] *)
Definition speechSynthesis_in_window : JS bool :=
  q <- gets_env speechSynthesis ;;
  ret (match q with Some _ => true | None => false end).

(** [window.speechSynthesis.speak(u)]: the utterance joins the queue. *)
Definition speechSynthesis_speak (u : Utterance) : JS unit :=
  q <- gets_env speechSynthesis ;;
  match q with
  | Some us => modify_env (set_speechSynthesis (Some (us ++ [u])))
  | None => throw TypeError
  end.

(** [window.speechSynthesis.cancel()]: every utterance leaves the queue; the
    host owes each of them an [error] event (canceled or interrupted), which
    it delivers later. *)
Definition speechSynthesis_cancel : JS unit :=
  q <- gets_env speechSynthesis ;;
  match q with
  | Some us =>
      modify_env (fun e =>
        set_cancelled (cancelled e ++ us) (set_speechSynthesis (Some []) e))
  | None => throw TypeError
  end.

(** [stream.getTracks().forEach(track => track.stop())] *)
Definition stopTracks (stream : StreamId) : JS unit :=
  modify_env (fun e =>
    set_liveStreams (filter (fun s => negb (N.eqb s stream)) (liveStreams e)) e).

(** [await new Promise(resolve => setTimeout(resolve, ms))]: the function is
    suspended and goes on at [k] when the timer fires. *)
Definition await_timeout (ms : N) (k : TimerContinuation) : JS unit :=
  modify_env (fun e => set_timers (timers e ++ [(ms, k)]) e).

(** [await navigator.mediaDevices.getUserMedia(...)], suspended at [k]. *)
Definition await_getUserMedia (k : MediaContinuation) : JS unit :=
  modify_env (fun e => set_pendingMedia (pendingMedia e ++ [k]) e).

(** The value of the [await] once the promise is settled: a rejection is
    thrown, a granted stream is live from then on. *)
Definition settled (r : Exn + StreamId) : JS StreamId :=
  match r with
  | inl e => throw e
  | inr stream =>
      modify_env (fun e => set_liveStreams (liveStreams e ++ [stream]) e) ;;
      ret stream
  end.

(** ** The camera effect, [useEffect(..., [translateMode])] *)

Definition bind_stream (stream : StreamId) : JS unit :=
  v <- gets_env videoRef ;;
  match v with
  | Some video =>
      modify_env (set_videoRef (Some {| srcObject := Some stream;
                                        videoWidth := videoWidth video;
                                        videoHeight := videoHeight video |})) ;;
      modify_env (set_streamRef (Some stream))
  | None => ret tt
  end.

Definition setupCamera : JS unit :=
  await_getUserMedia K_setupCamera_afterGetUserMedia.

Definition setupCamera_afterGetUserMedia (r : Exn + StreamId) : JS unit :=
  try_catch
    (stream <- settled r ;;
     bind_stream stream ;;
     setHasCameraPermission true)
    (fun error =>
     console_error (js "Camera access denied:") (Some error) ;;
     setHasCameraPermission false).

Definition effect_translateMode : JS unit :=
  m <- gets translateMode ;;
  when (Mode_eqb m camera) setupCamera.

Definition cleanup_translateMode : JS unit :=
  s <- gets_env streamRef ;;
  match s with
  | Some stream => stopTracks stream
  | None => ret tt
  end ;;
  has <- speechSynthesis_in_window ;;
  when has speechSynthesis_cancel.

Definition requestCameraPermission : JS unit :=
  await_getUserMedia K_requestCameraPermission_afterGetUserMedia.

Definition requestCameraPermission_afterGetUserMedia (r : Exn + StreamId) : JS unit :=
  try_catch
    (stream <- settled r ;;
     bind_stream stream ;;
     setHasCameraPermission true)
    (fun err =>
     console_error (js "Camera access error:") (Some err) ;;
     alert (js "Camera access denied. Please enable camera access in your browser settings.")).

(** ** Speech *)

Definition speakText : JS unit :=
  t <- gets translatedText ;;
  has <- speechSynthesis_in_window ;;
  (if negb (truthy t) || negb has then return_ else ret tt) ;;
  setIsSpeaking true ;;
  cfg <- gets ttsSettings ;;
  let utterance := {| u_text := t; u_lang := language cfg; u_pitch := pitch cfg;
                      u_rate := rate cfg; u_volume := volume cfg |} in
  speechSynthesis_speak utterance.

(** [utterance.onend] and [utterance.onerror] *)
Definition utterance_onend : JS unit := setIsSpeaking false.

Definition utterance_onerror : JS unit :=
  console_error (js "Speech error") None ;;
  setIsSpeaking false.

Definition stopSpeaking : JS unit :=
  has <- speechSynthesis_in_window ;;
  when has speechSynthesis_cancel ;;
  setIsSpeaking false.

Definition toggleSettings : JS unit :=
  b <- gets showSettings ;;
  setShowSettings (negb b).

Inductive SettingUpdate :=
| SetLanguage (code : JSString)
| SetRate (v : Q)
| SetPitch (v : Q).

Definition updateTtsSetting (u : SettingUpdate) : JS unit :=
  modify (fun s =>
    let prev := ttsSettings s in
    set_ttsSettings
      match u with
      | SetLanguage c => {| language := c; pitch := pitch prev; rate := rate prev; volume := volume prev |}
      | SetRate v => {| language := language prev; pitch := pitch prev; rate := v; volume := volume prev |}
      | SetPitch v => {| language := language prev; pitch := v; rate := rate prev; volume := volume prev |}
      end s).

(** ** Capture and the mock translation *)

Definition SAMPLE_TRANSLATION : JSString :=
  js "Hello! How are you? (Sample Sign Language Translation)".

Definition ERROR_TRANSLATION : JSString := js "Error in translation".

Definition canvas_resize (video : VideoEl) : JS unit :=
  modify_env (fun e =>
    match canvasRef e with
    | Some c => set_canvasRef (Some {| width := videoWidth video; height := height c |}) e
    | None => e
    end) ;;
  modify_env (fun e =>
    match canvasRef e with
    | Some c => set_canvasRef (Some {| width := width c; height := videoHeight video |}) e
    | None => e
    end).

Definition canvas_dimensions : JS JSString :=
  c <- gets_env canvasRef ;;
  match c with
  | Some c => ret (js "Canvas dimensions set to " ++ numToString (width c)
                   ++ js "x" ++ numToString (height c))
  | None => throw TypeError
  end.

(** [canvas.getContext('2d')], then [context.drawImage(...)]: calling a
    method of [null] throws. *)
Definition canvas_draw (h : CanvasHost) : JS unit :=
  if getContext2d h then
    match drawImage_throws h with
    | Some e => throw e
    | None => ret tt
    end
  else throw TypeError.

Definition canvas_toDataURL (h : CanvasHost) : JS JSString :=
  match toDataURL_result h with
  | inl e => throw e
  | inr url => ret url
  end.

(** The [try] block of [captureImage] up to its [await]. *)
Definition captureImage_try (h : CanvasHost) : JS unit :=
  v <- gets_env videoRef ;;
  c <- gets_env canvasRef ;;
  match v, c with
  | Some video, Some _ =>
      console_log (js "Capturing image from video") ;;
      canvas_resize video ;;
      msg <- canvas_dimensions ;;
      console_log msg ;;
      canvas_draw h ;;
      imageDataUrl <- canvas_toDataURL h ;;
      console_log (js "Image captured successfully") ;;
      setCapturedImage (Some imageDataUrl)
  | _, _ =>
      console_error (js "Video or canvas refs not available") None ;;
      return_
  end ;;
  setIsProcessing true ;;
  await_timeout 2000 K_captureImage_afterDelay.

Definition captureImage_catch (error : Exn) : JS unit :=
  console_error (js "Image capture error:") (Some error) ;;
  setTranslatedText ERROR_TRANSLATION ;;
  setIsProcessing false.

Definition captureImage (h : CanvasHost) : JS unit :=
  try_catch (captureImage_try h) captureImage_catch.

(** The rest of the [try] block, run when the 2000 ms timer fires. *)
Definition captureImage_afterDelay : JS unit :=
  try_catch
    (setTranslatedText SAMPLE_TRANSLATION ;;
     setIsProcessing false)
    captureImage_catch.

Definition resetTranslation : JS unit :=
  setTranslatedText [] ;;
  setInputText [] ;;
  setCapturedImage None.

Definition downloadImage (now : N) : JS unit :=
  img <- gets capturedImage ;;
  match img with
  | Some href =>
      when (truthy href)
        (modify_env (fun e =>
           set_downloads
             (downloads e ++ [(href, js "sign_language_capture_" ++ numToString now ++ js ".jpg")]) e))
  | None => ret tt
  end.

Definition handleTextTranslation : JS unit :=
  t <- gets inputText ;;
  when (truthy (trim t)) (setTranslatedText t).

(** ** What is on screen

    The JSX of the component decides which elements exist, hence which refs
    are attached and which handlers a user can reach. *)

(** The [<video>] and the [<canvas>] are rendered in camera mode, with no
    captured image, once permission is held. *)
Definition preview_rendered (s : State) : bool :=
  Mode_eqb (translateMode s) camera
  && negb (truthy_opt (capturedImage s))
  && hasCameraPermission s.

(** The capture button is rendered under the same condition as the preview. *)
Definition capture_button_rendered (s : State) : bool :=
  Mode_eqb (translateMode s) camera
  && negb (truthy_opt (capturedImage s))
  && hasCameraPermission s.

(** [disabled={isProcessing}] *)
Definition capture_button_disabled (s : State) : bool := isProcessing s.

Definition enable_camera_rendered (s : State) : bool :=
  Mode_eqb (translateMode s) camera
  && negb (truthy_opt (capturedImage s))
  && negb (hasCameraPermission s).

Definition captured_view_rendered (s : State) : bool :=
  Mode_eqb (translateMode s) camera && truthy_opt (capturedImage s).

Definition text_tab_rendered (s : State) : bool :=
  Mode_eqb (translateMode s) text.

(** [{translatedText && (...)}]: reset, settings toggle and speaker button. *)
Definition result_controls_rendered (s : State) : bool :=
  truthy (translatedText s).

Definition settings_panel_rendered (s : State) : bool :=
  truthy (translatedText s) && showSettings s.

Definition JSString_eqb (a b : JSString) : bool :=
  if list_eq_dec N.eq_dec a b then true else false.

Definition language_offered (code : JSString) : bool :=
  existsb (fun o => JSString_eqb (fst o) code) LANGUAGE_OPTIONS.

(** A committed render: the refs follow the elements on screen.  An element
    that stays on screen is the same element; a new [<video>] has no
    [srcObject] yet. *)
Definition commit (w : World) : World :=
  if preview_rendered (st w) then
    {| st := st w;
       env := set_canvasRef
                (match canvasRef (env w) with
                 | Some c => Some c
                 | None => Some {| width := 300; height := 150 |}
                 end)
                (set_videoRef
                   (match videoRef (env w) with
                    | Some v => Some v
                    | None => Some {| srcObject := None; videoWidth := 0; videoHeight := 0 |}
                    end)
                   (env w)) |}
  else
    {| st := st w; env := set_canvasRef None (set_videoRef None (env w)) |}.

(** ** Events *)

Inductive Event :=
| ClickCameraTab
| ClickTextTab
| ClickCapture (h : CanvasHost)
| ClickDownload (now : N)
| ClickDiscard
| ClickEnableCamera
| ChangeInput (value : JSString)
| ClickProcessText
| ClickReset
| ClickToggleSettings
| ClickLanguage (code : JSString)
| ChangeRate (v : Q)
| ChangePitch (v : Q)
| ClickSpeaker
| TimerFires
| MediaSettles (r : Exn + StreamId)
| VideoMetadata (vw vh : N)
| UtteranceEnds
| UtteranceErrors
| CancelledUtteranceErrors.

Definition in_range (lo hi v : Q) : bool := Qle_bool lo v && Qle_bool v hi.

(** Whether the event can happen in this world: the element is on screen
    and not disabled, the value is one the control can produce, or the host
    has something pending. *)
Definition enabled (e : Event) (w : World) : bool :=
  let s := st w in
  match e with
  | ClickCameraTab | ClickTextTab => true
  | ClickCapture _ => capture_button_rendered s && negb (capture_button_disabled s)
  | ClickDownload _ | ClickDiscard => captured_view_rendered s
  | ClickEnableCamera => enable_camera_rendered s
  | ChangeInput _ | ClickProcessText => text_tab_rendered s
  | ClickReset | ClickToggleSettings | ClickSpeaker => result_controls_rendered s
  | ClickLanguage code => settings_panel_rendered s && language_offered code
  | ChangeRate v => settings_panel_rendered s && in_range (1 # 2) (3 # 2) v
  | ChangePitch v => settings_panel_rendered s && in_range (1 # 2) 2 v
  | TimerFires => match timers (env w) with [] => false | _ :: _ => true end
  | MediaSettles _ => match pendingMedia (env w) with [] => false | _ :: _ => true end
  | VideoMetadata _ _ => match videoRef (env w) with Some _ => true | None => false end
  | UtteranceEnds | UtteranceErrors =>
      match speechSynthesis (env w) with
      | Some (_ :: _) => true
      | _ => false
      end
  | CancelledUtteranceErrors =>
      match cancelled (env w) with [] => false | _ :: _ => true end
  end.

Definition resume_timer (k : TimerContinuation) : JS unit :=
  match k with
  | K_captureImage_afterDelay => captureImage_afterDelay
  end.

Definition resume_media (k : MediaContinuation) (r : Exn + StreamId) : JS unit :=
  match k with
  | K_setupCamera_afterGetUserMedia => setupCamera_afterGetUserMedia r
  | K_requestCameraPermission_afterGetUserMedia =>
      requestCameraPermission_afterGetUserMedia r
  end.

Definition pop_utterance : JS unit :=
  modify_env (fun e =>
    match speechSynthesis e with
    | Some (_ :: us) => set_speechSynthesis (Some us) e
    | _ => e
    end).

(** The host delivers the [error] event of the oldest cancelled utterance. *)
Definition pop_cancelled : JS unit :=
  modify_env (fun e => set_cancelled (tl (cancelled e)) e).

(** The code an event runs. *)
Definition handler (e : Event) : JS unit :=
  match e with
  | ClickCameraTab => setTranslateMode camera
  | ClickTextTab => setTranslateMode text
  | ClickCapture h => call (captureImage h)
  | ClickDownload now => call (downloadImage now)
  | ClickDiscard => setCapturedImage None
  | ClickEnableCamera => call requestCameraPermission
  | ChangeInput value => setInputText value
  | ClickProcessText => call handleTextTranslation
  | ClickReset => call resetTranslation
  | ClickToggleSettings => call toggleSettings
  | ClickLanguage code => call (updateTtsSetting (SetLanguage code))
  | ChangeRate v => call (updateTtsSetting (SetRate v))
  | ChangePitch v => call (updateTtsSetting (SetPitch v))
  | ClickSpeaker =>
      speaking <- gets isSpeaking ;;
      if speaking then call stopSpeaking else call speakText
  | TimerFires =>
      ts <- gets_env timers ;;
      match ts with
      | (_, k) :: rest =>
          modify_env (set_timers rest) ;;
          resume_timer k
      | [] => ret tt
      end
  | MediaSettles r =>
      ps <- gets_env pendingMedia ;;
      match ps with
      | k :: rest =>
          modify_env (set_pendingMedia rest) ;;
          resume_media k r
      | [] => ret tt
      end
  | VideoMetadata vw vh =>
      modify_env (fun e =>
        match videoRef e with
        | Some v => set_videoRef (Some {| srcObject := srcObject v;
                                          videoWidth := vw; videoHeight := vh |}) e
        | None => e
        end)
  | UtteranceEnds => pop_utterance ;; utterance_onend
  | UtteranceErrors => pop_utterance ;; utterance_onerror
  | CancelledUtteranceErrors => pop_cancelled ;; utterance_onerror
  end.

(** After the handler React renders again; when [translateMode] has changed
    the cleanup of the previous effect runs, then the effect. *)
Definition rerender (before : State) (w : World) : World :=
  let w1 := commit w in
  if Mode_eqb (translateMode before) (translateMode (st w1)) then w1
  else exec effect_translateMode (exec cleanup_translateMode w1).

Definition dispatch (e : Event) (w : World) : World :=
  if enabled e w then rerender (st w) (exec (handler e) w) else w.

Definition run (es : list Event) (w : World) : World :=
  fold_left (fun w e => dispatch e w) es w.

Definition initialEnv (synthesis : bool) : Env := {|
  videoRef := None;
  canvasRef := None;
  streamRef := None;
  liveStreams := [];
  speechSynthesis := if synthesis then Some [] else None;
  cancelled := [];
  timers := [];
  pendingMedia := [];
  console := [];
  alerts := [];
  downloads := []
|}.

(** Mounting the component: first render, then the effect. *)
Definition mount (synthesis : bool) : World :=
  exec effect_translateMode
    (commit {| st := initialState; env := initialEnv synthesis |}).

(** Unmounting runs the cleanup of the effect. *)
Definition unmount (w : World) : World := exec cleanup_translateMode w.

(** ** Predicates used in the statements *)

Definition valid_settings (c : TtsSettings) : Prop :=
  In (language c) (map fst LANGUAGE_OPTIONS)
  /\ (1 # 2 <= pitch c <= 2)%Q
  /\ (1 # 2 <= rate c <= 3 # 2)%Q
  /\ (0 <= volume c <= 1)%Q.

(** The utterances held by the speech facility. *)
Definition utterances (w : World) : list Utterance :=
  match speechSynthesis (env w) with
  | Some us => us
  | None => []
  end.

(** The mock delays that have been started and have not fired. *)
Definition delays_in_flight (w : World) : nat := List.length (timers (env w)).

(** The canvas draws and encodes without throwing, answering [url]. *)
Definition canvas_works (h : CanvasHost) (url : JSString) : Prop :=
  getContext2d h = true /\ drawImage_throws h = None /\ toDataURL_result h = inr url.

(** The world right after the synchronous part of a successful capture. *)
Definition after_capture (video : VideoEl) (url : JSString) (w : World) : World :=
  {| st := set_isProcessing true (set_capturedImage (Some url) (st w));
     env :=
       set_timers (timers (env w) ++ [(2000%N, K_captureImage_afterDelay)])
         (set_console
            (console (env w)
             ++ [ConsoleLog (js "Capturing image from video");
                 ConsoleLog (js "Canvas dimensions set to " ++ numToString (videoWidth video)
                             ++ js "x" ++ numToString (videoHeight video));
                 ConsoleLog (js "Image captured successfully")])
            (set_canvasRef
               (Some {| width := videoWidth video; height := videoHeight video |})
               (env w))) |}.

(** ** Invariants of the event loop *)

(** At most one mock delay is pending, and none unless the processing flag
    is set. *)
Definition single_translation (w : World) : Prop :=
  (delays_in_flight w <= 1)%nat
  /\ (isProcessing (st w) = false -> delays_in_flight w = 0%nat).

(** The queue is in step with the speaking flag: at most one utterance is
    queued, and none unless the flag is set.  (Not an invariant of the event
    loop: a late error event of a cancelled utterance can break it.) *)
Definition single_utterance (w : World) : Prop :=
  (List.length (utterances w) <= 1)%nat
  /\ (isSpeaking (st w) = false -> utterances w = []).

(** ** Notions used in further statements *)

(** The utterance [speakText] builds in a state. *)
Definition utterance_of (s : State) : Utterance :=
  {| u_text := translatedText s;
     u_lang := language (ttsSettings s);
     u_pitch := pitch (ttsSettings s);
     u_rate := rate (ttsSettings s);
     u_volume := volume (ttsSettings s) |}.

(** Whether a ref holds an element. *)
Definition attached {A} (r : option A) : bool :=
  match r with Some _ => true | None => false end.

(** Both refs are attached exactly while the preview is on screen. *)
Definition refs_follow_render (w : World) : Prop :=
  attached (videoRef (env w)) = preview_rendered (st w)
  /\ attached (canvasRef (env w)) = preview_rendered (st w).

(** The settings are valid and the volume is the initial one. *)
Definition settings_in_range (c : TtsSettings) : Prop :=
  valid_settings c /\ volume c = 1.

(** The processing flag is set exactly while one mock delay is pending. *)
Definition processing_matches_delay (w : World) : Prop :=
  delays_in_flight w = if isProcessing (st w) then 1%nat else 0%nat.

(** The attached [<video>], if it shows a stream, shows the one held in
    [streamRef]. *)
Definition preview_shows_tracked_stream (w : World) : Prop :=
  forall v : VideoEl,
    videoRef (env w) = Some v ->
    srcObject v = None \/ srcObject v = streamRef (env w).

(** ** Sample worlds and hosts *)

(** Text mode with ["  hello  "] typed. *)
Definition w_hello : World :=
  {| st := set_translateMode text (set_inputText (js "  hello  ") initialState);
     env := initialEnv true |}.

(** Text mode with three blanks typed. *)
Definition w_blank : World :=
  {| st := set_translateMode text (set_inputText (js "   ") initialState);
     env := initialEnv true |}.

(** Camera mode in the middle of a translation: an image is held, so the
    preview is off screen and both refs are absent; the delay is pending and
    the previous result is being spoken. *)
Definition w_busy : World :=
  {| st := {| hasCameraPermission := true;
              translatedText := SAMPLE_TRANSLATION;
              inputText := js "draft";
              capturedImage := Some (js "data:image/jpeg;base64,AAAA");
              isProcessing := true;
              translateMode := camera;
              ttsSettings := {| language := js "fr"; pitch := 3 # 2; rate := 1; volume := 1 |};
              showSettings := true;
              isSpeaking := true |};
     env := {| videoRef := None; canvasRef := None; streamRef := Some 7%N;
               liveStreams := [7%N];
               speechSynthesis :=
                 Some [ {| u_text := SAMPLE_TRANSLATION; u_lang := js "fr";
                           u_pitch := 3 # 2; u_rate := 1; u_volume := 1 |} ];
               cancelled := [];
               timers := [(2000%N, K_captureImage_afterDelay)];
               pendingMedia := []; console := []; alerts := []; downloads := [] |} |}.

(** Camera mode with a live preview of stream [7]. *)
Definition w_preview : World :=
  {| st := set_hasCameraPermission true initialState;
     env := set_canvasRef (Some {| width := 300; height := 150 |})
              (set_videoRef (Some {| srcObject := Some 7%N; videoWidth := 640;
                                     videoHeight := 480 |})
                 (set_streamRef (Some 7%N)
                    (set_liveStreams [7%N] (initialEnv true)))) |}.

Definition u_greeting : Utterance :=
  {| u_text := js "Hi"; u_lang := js "en"; u_pitch := 1; u_rate := 3 # 4; u_volume := 1 |}.

(** Text mode with the result ["Hi"] being spoken. *)
Definition w_speaking : World :=
  {| st := set_isSpeaking true
             (set_translatedText (js "Hi") (set_translateMode text initialState));
     env := set_speechSynthesis (Some [u_greeting]) (initialEnv true) |}.

(** A canvas that draws and encodes. *)
Definition host_ok : CanvasHost :=
  {| getContext2d := true; drawImage_throws := None;
     toDataURL_result := inr (js "data:image/jpeg;base64,AAAA") |}.

(** A canvas whose [toDataURL] throws. *)
Definition host_tainted : CanvasHost :=
  {| getContext2d := true; drawImage_throws := None;
     toDataURL_result := inl (js "SecurityError") |}.

(** ** Proof automation *)

Ltac open_world w :=
  let s := fresh "s" in
  let e := fresh "e" in
  destruct w as [s e]; destruct s, e; cbn [st env] in *.

Ltac js_unfold :=
  unfold exec, handler, resume_timer, resume_media, call,
    captureImage, captureImage_afterDelay, captureImage_catch, captureImage_try,
    canvas_resize, canvas_dimensions, canvas_draw, canvas_toDataURL,
    downloadImage, requestCameraPermission, requestCameraPermission_afterGetUserMedia,
    setupCamera, setupCamera_afterGetUserMedia, bind_stream, settled,
    handleTextTranslation, resetTranslation, toggleSettings, updateTtsSetting,
    stopSpeaking, speakText, utterance_onend, utterance_onerror, pop_utterance,
    pop_cancelled,
    speechSynthesis_in_window, speechSynthesis_speak, speechSynthesis_cancel,
    stopTracks, await_timeout, await_getUserMedia, console_log, console_error, alert,
    setHasCameraPermission, setTranslatedText, setInputText, setCapturedImage,
    setIsProcessing, setTranslateMode, setShowSettings, setIsSpeaking,
    try_catch, when, throw, return_, bind, ret, gets, gets_env, modify, modify_env;
  cbn -[trim js numToString app].

(** * Properties *)

Unset Implicit Arguments.

(** ** Strings *)

Lemma trimStart_nil (s : JSString) :
  trimStart s = [] <-> forallb isWhiteSpace s = true.
Proof.
  induction s as [|c s IH]; simpl.
  - tauto.
  - destruct (isWhiteSpace c); simpl.
    + exact IH.
    + split; discriminate.
Qed.

Lemma trimStart_head (s : JSString) (c : N) (t : JSString) :
  trimStart s = c :: t -> isWhiteSpace c = false.
Proof.
  induction s as [|d s IH]; simpl.
  - discriminate.
  - destruct (isWhiteSpace d) eqn:E.
    + exact IH.
    + intros H. injection H as -> _. exact E.
Qed.

Lemma forallb_rev {A} (f : A -> bool) (l : list A) :
  forallb f (rev l) = forallb f l.
Proof.
  induction l as [|a l IH]; simpl.
  - reflexivity.
  - rewrite forallb_app, IH. simpl. rewrite andb_true_r. apply andb_comm.
Qed.

Lemma trimEnd_nil (s : JSString) :
  trimEnd s = [] <-> forallb isWhiteSpace s = true.
Proof.
  unfold trimEnd. rewrite <- (forallb_rev isWhiteSpace s), <- trimStart_nil.
  split; intros H.
  - apply (f_equal (@rev N)) in H. rewrite rev_involutive in H. exact H.
  - rewrite H. reflexivity.
Qed.

(** [trim] answers the empty string exactly on whitespace-only input. *)
Lemma trim_nil (s : JSString) :
  trim s = [] <-> forallb isWhiteSpace s = true.
Proof.
  unfold trim. rewrite trimEnd_nil. split; intros H.
  - destruct (trimStart s) as [|c t] eqn:E.
    + apply trimStart_nil. exact E.
    + simpl in H. rewrite (trimStart_head s c t E) in H. discriminate.
  - apply trimStart_nil in H. rewrite H. reflexivity.
Qed.

Lemma truthy_false (s : JSString) : truthy s = false <-> s = [].
Proof. destruct s; simpl; split; congruence. Qed.

Lemma truthy_true (s : JSString) : truthy s = true <-> s <> [].
Proof. destruct s; simpl; split; congruence. Qed.

(** ** Text translation *)

(** C1, as the claim states it, fails: for the input ["  hello  "] the
    result is the input as typed, blanks included, not its trimmed form
    ["hello"]. *)
Lemma handleTextTranslation_not_trimmed :
  trim (inputText (st w_hello)) = js "hello"
  /\ translatedText (st (exec handleTextTranslation w_hello)) = js "  hello  "
  /\ translatedText (st (exec handleTextTranslation w_hello))
     <> trim (inputText (st w_hello)).
Proof.
  repeat split; try reflexivity.
  vm_compute. discriminate.
Qed.

(** C1 (amended): when the trimmed input is non-empty, submitting the text
    sets the translation result to the input exactly as typed and changes
    nothing else; when the input is whitespace-only, submitting changes
    nothing at all. *)
Theorem handleTextTranslation_echoes_input (w : World) :
  (trim (inputText (st w)) <> [] ->
   call handleTextTranslation w
   = (Normal tt, {| st := set_translatedText (inputText (st w)) (st w);
                    env := env w |}))
  /\ (forallb isWhiteSpace (inputText (st w)) = true ->
      call handleTextTranslation w = (Normal tt, w)).
Proof.
  split; intros H.
  - apply truthy_true in H.
    unfold handleTextTranslation, call, bind, gets, when. simpl.
    rewrite H. reflexivity.
  - apply trim_nil in H.
    unfold handleTextTranslation, call, bind, gets, when. simpl.
    rewrite H. reflexivity.
Qed.

Lemma handleTextTranslation_echoes_input_witness :
  translatedText (st (exec handleTextTranslation w_hello)) = js "  hello  "
  /\ exec handleTextTranslation w_blank = w_blank.
Proof.
  split.
  - unfold exec.
    rewrite (proj1 (handleTextTranslation_echoes_input w_hello)).
    + reflexivity.
    + vm_compute. discriminate.
  - unfold exec.
    rewrite (proj2 (handleTextTranslation_echoes_input w_blank)).
    + reflexivity.
    + reflexivity.
Defined.

(** ** Reset *)

(** C6: from every state, reset completes normally and leaves the
    translation result empty, the typed-text buffer empty and the captured
    image null; what these three held before has no influence on the state
    after reset. *)
Theorem resetTranslation_clears (w : World) :
  fst (call resetTranslation w) = Normal tt
  /\ translatedText (st (exec resetTranslation w)) = []
  /\ inputText (st (exec resetTranslation w)) = []
  /\ capturedImage (st (exec resetTranslation w)) = None
  /\ forall (t i : JSString) (c : option JSString),
       exec resetTranslation
         {| st := set_translatedText t (set_inputText i (set_capturedImage c (st w)));
            env := env w |}
       = exec resetTranslation w.
Proof.
  repeat split.
Qed.

(** C9: reset leaves the processing flag, the speaking flag, the speech
    settings, the selected mode and the camera permission as they were, and
    touches nothing outside the React state: the speech queue and the
    pending timers are the same, so a running utterance keeps running and
    an in-flight translation stays in flight. *)
Theorem resetTranslation_frame (w : World) :
  let w' := exec resetTranslation w in
  isProcessing (st w') = isProcessing (st w)
  /\ isSpeaking (st w') = isSpeaking (st w)
  /\ ttsSettings (st w') = ttsSettings (st w)
  /\ translateMode (st w') = translateMode (st w)
  /\ hasCameraPermission (st w') = hasCameraPermission (st w)
  /\ showSettings (st w') = showSettings (st w)
  /\ env w' = env w
  /\ utterances w' = utterances w
  /\ delays_in_flight w' = delays_in_flight w.
Proof.
  repeat split.
Qed.

(** ** Stopping speech *)

(** C10: from every state, stop-speaking completes normally with the
    speaking flag false.  Where the speech facility is missing no cancel is
    attempted and the environment is untouched; where it is present the
    queue is emptied. *)
Theorem stopSpeaking_clears_flag (w : World) :
  fst (call stopSpeaking w) = Normal tt
  /\ isSpeaking (st (exec stopSpeaking w)) = false
  /\ match speechSynthesis (env w) with
     | None => env (exec stopSpeaking w) = env w
     | Some _ => speechSynthesis (env (exec stopSpeaking w)) = Some []
     end.
Proof.
  unfold exec, call, stopSpeaking, speechSynthesis_in_window, speechSynthesis_cancel,
    bind, gets_env, when, ret.
  simpl.
  destruct (speechSynthesis (env w)) as [q|] eqn:E; simpl; rewrite ?E; simpl;
    repeat split.
Qed.

(** ** Capture *)

Lemma captureImage_try_without_refs (h : CanvasHost) (w : World) :
  videoRef (env w) = None \/ canvasRef (env w) = None ->
  captureImage_try h w
  = (Return,
     {| st := st w;
        env := set_console
                 (console (env w)
                  ++ [ConsoleError (js "Video or canvas refs not available") None])
                 (env w) |}).
Proof.
  intros H. unfold captureImage_try, bind, gets_env. simpl.
  destruct (videoRef (env w)) as [v|], (canvasRef (env w)) as [c|];
    try reflexivity.
  destruct H; discriminate.
Qed.

(** C8: when the video ref or the canvas ref is absent, image capture
    reports the failure on the console and returns normally; the React
    state (captured image, processing flag, translation result and the
    rest) is unchanged, no timer is started, and the console entry is the
    only trace. *)
Theorem captureImage_without_refs (h : CanvasHost) (w : World) :
  videoRef (env w) = None \/ canvasRef (env w) = None ->
  call (captureImage h) w
  = (Normal tt,
     {| st := st w;
        env := set_console
                 (console (env w)
                  ++ [ConsoleError (js "Video or canvas refs not available") None])
                 (env w) |}).
Proof.
  intros H. unfold call, captureImage, try_catch.
  rewrite (captureImage_try_without_refs h w H). reflexivity.
Qed.

Lemma captureImage_without_refs_witness :
  st (exec (captureImage host_ok) w_busy) = st w_busy
  /\ timers (env (exec (captureImage host_ok) w_busy)) = timers (env w_busy).
Proof.
  unfold exec.
  rewrite (captureImage_without_refs host_ok w_busy (or_introl eq_refl)).
  split; reflexivity.
Defined.

Lemma captureImage_try_ok (h : CanvasHost) (w : World)
      (video : VideoEl) (canvas : CanvasEl) (url : JSString) :
  videoRef (env w) = Some video ->
  canvasRef (env w) = Some canvas ->
  canvas_works h url ->
  captureImage_try h w = (Normal tt, after_capture video url w).
Proof.
  intros Hv Hc (Hg & Hd & Hu).
  destruct w as [s e], e, h. cbn in Hv, Hc, Hg, Hd, Hu. subst.
  unfold after_capture. cbn -[numToString js app].
  rewrite <- !app_assoc. reflexivity.
Qed.

Lemma captureImage_afterDelay_run (w : World) :
  call captureImage_afterDelay w
  = (Normal tt,
     {| st := set_isProcessing false (set_translatedText SAMPLE_TRANSLATION (st w));
        env := env w |}).
Proof. reflexivity. Qed.

Lemma Mode_eqb_refl (m : Mode) : Mode_eqb m m = true.
Proof. destruct m; reflexivity. Qed.

Lemma commit_st (w : World) : st (commit w) = st w.
Proof. unfold commit. destruct (preview_rendered (st w)); reflexivity. Qed.

Lemma commit_timers (w : World) : timers (env (commit w)) = timers (env w).
Proof. unfold commit. destruct (preview_rendered (st w)); reflexivity. Qed.

Lemma commit_speechSynthesis (w : World) :
  speechSynthesis (env (commit w)) = speechSynthesis (env w).
Proof. unfold commit. destruct (preview_rendered (st w)); reflexivity. Qed.

(** A render that follows a handler which kept the mode is a plain commit. *)
Lemma rerender_same_mode (before : State) (w : World) :
  translateMode (st w) = translateMode before ->
  rerender before w = commit w.
Proof.
  intros H. unfold rerender. rewrite commit_st, H, Mode_eqb_refl. reflexivity.
Qed.

Lemma dispatch_TimerFires_capture (w : World) (ms : N)
      (rest : list (N * TimerContinuation)) :
  timers (env w) = (ms, K_captureImage_afterDelay) :: rest ->
  dispatch TimerFires w
  = commit {| st := set_isProcessing false
                      (set_translatedText SAMPLE_TRANSLATION (st w));
              env := set_timers rest (env w) |}.
Proof.
  intros H. unfold dispatch, enabled. rewrite H.
  assert (E : exec (handler TimerFires) w
              = {| st := set_isProcessing false
                           (set_translatedText SAMPLE_TRANSLATION (st w));
                   env := set_timers rest (env w) |}).
  { unfold exec, call, handler, bind, gets_env. cbn [env]. rewrite H. reflexivity. }
  rewrite E. apply rerender_same_mode. reflexivity.
Qed.

(** C4: with the video and canvas refs attached and a canvas that draws and
    encodes, image capture returns normally having stored the encoded
    snapshot, set the processing flag and armed one 2000 ms timer, the
    translation result still untouched; and whenever that timer fires, the
    translation result becomes exactly
    ["Hello! How are you? (Sample Sign Language Translation)"], the
    processing flag becomes false and the timer is gone. *)
Theorem captureImage_sample_translation (h : CanvasHost) (w : World)
        (video : VideoEl) (canvas : CanvasEl) (url : JSString) :
  videoRef (env w) = Some video ->
  canvasRef (env w) = Some canvas ->
  canvas_works h url ->
  let w1 := exec (captureImage h) w in
  fst (call (captureImage h) w) = Normal tt
  /\ capturedImage (st w1) = Some url
  /\ isProcessing (st w1) = true
  /\ translatedText (st w1) = translatedText (st w)
  /\ timers (env w1) = timers (env w) ++ [(2000%N, K_captureImage_afterDelay)]
  /\ forall (w2 : World) (rest : list (N * TimerContinuation)),
       timers (env w2) = (2000%N, K_captureImage_afterDelay) :: rest ->
       let w3 := dispatch TimerFires w2 in
       translatedText (st w3) = SAMPLE_TRANSLATION
       /\ SAMPLE_TRANSLATION = js "Hello! How are you? (Sample Sign Language Translation)"
       /\ isProcessing (st w3) = false
       /\ timers (env w3) = rest.
Proof.
  intros Hv Hc Hw.
  unfold exec, call, captureImage, try_catch.
  rewrite (captureImage_try_ok h w video canvas url Hv Hc Hw). cbn [fst snd].
  repeat split.
  all: rewrite (dispatch_TimerFires_capture w2 2000%N rest H).
  - rewrite commit_st. reflexivity.
  - rewrite commit_st. reflexivity.
  - rewrite commit_timers. reflexivity.
Qed.

Lemma captureImage_sample_translation_witness :
  capturedImage (st (exec (captureImage host_ok) w_preview))
  = Some (js "data:image/jpeg;base64,AAAA")
  /\ translatedText
       (st (dispatch TimerFires (exec (captureImage host_ok) w_preview)))
     = js "Hello! How are you? (Sample Sign Language Translation)".
Proof.
  pose proof (captureImage_sample_translation host_ok w_preview
                {| srcObject := Some 7%N; videoWidth := 640; videoHeight := 480 |}
                {| width := 300; height := 150 |}
                (js "data:image/jpeg;base64,AAAA")
                eq_refl eq_refl (conj eq_refl (conj eq_refl eq_refl)))
    as (_ & Hi & _ & _ & Ht & Hfire).
  split.
  - exact Hi.
  - destruct (Hfire (exec (captureImage host_ok) w_preview) [] Ht) as (Hr & Hs & _).
    rewrite Hr. exact Hs.
Defined.

(** C7: image capture never completes by throwing, neither before nor after
    the delay; and whatever is thrown inside its [try] block, the call
    returns normally with the translation result set to
    ["Error in translation"] and the processing flag false, the error being
    written to the console. *)
Theorem captureImage_failure_is_caught (h : CanvasHost) (w : World) :
  fst (call (captureImage h) w) = Normal tt
  /\ fst (call captureImage_afterDelay w) = Normal tt
  /\ forall (e : Exn) (w' : World),
       captureImage_try h w = (Throw e, w') ->
       call (captureImage h) w
       = (Normal tt,
          {| st := set_isProcessing false
                     (set_translatedText (js "Error in translation") (st w'));
             env := set_console
                      (console (env w')
                       ++ [ConsoleError (js "Image capture error:") (Some e)])
                      (env w') |}).
Proof.
  split; [|split].
  - unfold call, captureImage, try_catch.
    destruct (captureImage_try h w) as [[[]| |e] w']; reflexivity.
  - reflexivity.
  - intros e w' H. unfold call, captureImage, try_catch. rewrite H. reflexivity.
Qed.

Lemma captureImage_failure_is_caught_witness :
  translatedText (st (exec (captureImage host_tainted) w_preview))
  = js "Error in translation"
  /\ isProcessing (st (exec (captureImage host_tainted) w_preview)) = false.
Proof.
  destruct (captureImage_failure_is_caught host_tainted w_preview) as (_ & _ & H).
  unfold exec.
  rewrite (H (js "SecurityError")
             (snd (captureImage_try host_tainted w_preview)) eq_refl).
  split; reflexivity.
Defined.

(** ** Camera streams *)

(** With no [<video>] on screen a granted stream is not recorded in
    [streamRef], and the cleanup, which only looks there, does not stop it. *)
Lemma unbound_stream_survives_cleanup (w : World) (s : StreamId) :
  videoRef (env w) = None ->
  streamRef (env w) <> Some s ->
  let w1 := exec (setupCamera_afterGetUserMedia (inr s)) w in
  streamRef (env w1) = streamRef (env w)
  /\ In s (liveStreams (env (exec cleanup_translateMode w1))).
Proof.
  intros Hv Hs. destruct w as [st0 e], e. cbn in Hv, Hs. subst.
  cbn. split; [reflexivity|].
  destruct streamRef0 as [r|]; cbn.
  - destruct speechSynthesis0; cbn.
    all: rewrite filter_app; apply in_or_app; right; cbn.
    all: destruct (N.eqb_spec s r); [subst; congruence | cbn; auto].
  - destruct speechSynthesis0; cbn; apply in_or_app; right; cbn; auto.
Qed.

(** C3, the code at the failing input: the component mounts in camera mode
    (no permission yet, so no [<video>] is rendered and the video ref is
    absent), the camera request is granted with stream [7], and the user
    switches to text mode.  The cleanup has run, yet stream [7] is still
    live and [streamRef] never held it. *)
Theorem camera_stream_leaks_without_preview :
  let w1 := run [MediaSettles (inr 7%N)] (mount true) in
  let w2 := run [MediaSettles (inr 7%N); ClickTextTab] (mount true) in
  videoRef (env (mount true)) = None
  /\ hasCameraPermission (st w1) = true
  /\ streamRef (env w1) = None
  /\ translateMode (st w2) = text
  /\ liveStreams (env w2) = [7%N]
  /\ liveStreams (env (unmount w1)) = [7%N].
Proof.
  repeat split.
Qed.

(** ** Frame lemmas for renders and effects *)

Lemma cleanup_frame (w : World) :
  st (exec cleanup_translateMode w) = st w
  /\ timers (env (exec cleanup_translateMode w)) = timers (env w)
  /\ utterances (exec cleanup_translateMode w) = [].
Proof.
  open_world w.
  destruct streamRef0, speechSynthesis0; repeat split.
Qed.

Lemma effect_frame (w : World) :
  st (exec effect_translateMode w) = st w
  /\ timers (env (exec effect_translateMode w)) = timers (env w)
  /\ speechSynthesis (env (exec effect_translateMode w)) = speechSynthesis (env w).
Proof.
  open_world w.
  destruct translateMode0; repeat split.
Qed.

Lemma rerender_frame (before : State) (w : World) :
  st (rerender before w) = st w
  /\ timers (env (rerender before w)) = timers (env w)
  /\ (utterances (rerender before w) = utterances w
      \/ utterances (rerender before w) = []).
Proof.
  unfold rerender.
  destruct (Mode_eqb (translateMode before) (translateMode (st (commit w)))).
  - rewrite commit_st, commit_timers. unfold utterances.
    rewrite commit_speechSynthesis. auto.
  - destruct (effect_frame (exec cleanup_translateMode (commit w))) as (Hs & Ht & Hq).
    destruct (cleanup_frame (commit w)) as (Hs' & Ht' & Hq').
    rewrite Hs, Hs', commit_st, Ht, Ht', commit_timers.
    repeat split. right. unfold utterances in *. rewrite Hq. exact Hq'.
Qed.

(** ** Frame lemmas for handlers *)

(** Only a capture and a firing timer touch the timers or the processing
    flag. *)
Lemma handler_frame_processing (e : Event) (w : World) :
  match e with
  | ClickCapture _ | TimerFires => True
  | _ => timers (env (exec (handler e) w)) = timers (env w)
         /\ isProcessing (st (exec (handler e) w)) = isProcessing (st w)
  end.
Proof.
  destruct e; trivial; open_world w; js_unfold.
  all: try (split; reflexivity).
  - destruct capturedImage0 as [[|c i]|]; split; reflexivity.
  - destruct (truthy (trim inputText0)); split; reflexivity.
  - destruct isSpeaking0; cbn.
    + destruct speechSynthesis0; split; reflexivity.
    + destruct (truthy translatedText0), speechSynthesis0; split; reflexivity.
  - destruct pendingMedia0 as [|[] ps]; cbn; try (split; reflexivity).
    all: destruct r as [x|x]; cbn; try (split; reflexivity).
    all: destruct videoRef0; split; reflexivity.
  - destruct videoRef0; split; reflexivity.
  - destruct speechSynthesis0 as [[|u us]|]; split; reflexivity.
  - destruct speechSynthesis0 as [[|u us]|]; split; reflexivity.
Qed.

(** Only the speaker button and the end of an utterance touch the speech
    queue or the speaking flag. *)
Lemma handler_frame_speech (e : Event) (w : World) :
  match e with
  | ClickSpeaker | UtteranceEnds | UtteranceErrors
  | CancelledUtteranceErrors => True
  | _ => speechSynthesis (env (exec (handler e) w)) = speechSynthesis (env w)
         /\ isSpeaking (st (exec (handler e) w)) = isSpeaking (st w)
  end.
Proof.
  destruct e; trivial; open_world w; js_unfold.
  all: try (split; reflexivity).
  - destruct videoRef0, canvasRef0, h as [[] [d|] [x|u]]; split; reflexivity.
  - destruct capturedImage0 as [[|c i]|]; split; reflexivity.
  - destruct (truthy (trim inputText0)); split; reflexivity.
  - destruct timers0 as [|[ms []] ts]; split; reflexivity.
  - destruct pendingMedia0 as [|[] ps]; cbn; try (split; reflexivity).
    all: destruct r as [x|x]; cbn; try (split; reflexivity).
    all: destruct videoRef0; split; reflexivity.
  - destruct videoRef0; split; reflexivity.
Qed.

(** ** One translation in flight *)

(** A capture either arms one timer and sets the flag, or arms none and
    leaves the flag as it was or false. *)
Lemma captureImage_outcomes (h : CanvasHost) (w : World) :
  let w' := exec (captureImage h) w in
  (timers (env w') = timers (env w) ++ [(2000%N, K_captureImage_afterDelay)]
   /\ isProcessing (st w') = true)
  \/ (timers (env w') = timers (env w)
      /\ (isProcessing (st w') = isProcessing (st w) \/ isProcessing (st w') = false)).
Proof.
  open_world w. js_unfold.
  destruct videoRef0, canvasRef0, h as [[] [d|] [x|u]]; cbn; auto.
Qed.

Lemma rerender_single_translation (before : State) (w : World) :
  single_translation w -> single_translation (rerender before w).
Proof.
  destruct (rerender_frame before w) as (Hs & Ht & _).
  unfold single_translation, delays_in_flight. rewrite Hs, Ht. tauto.
Qed.

Lemma dispatch_single_translation (e : Event) (w : World) :
  single_translation w -> single_translation (dispatch e w).
Proof.
  intros Hw. unfold dispatch. destruct (enabled e w) eqn:En; [|exact Hw].
  apply rerender_single_translation.
  destruct Hw as (Hle & Hidle).
  unfold single_translation, delays_in_flight in *.
  pose proof (handler_frame_processing e w) as F.
  destruct e; try (destruct F as (Ft & Fp); rewrite Ft, Fp; tauto).
  - (* the capture button: rendered and not disabled *)
    clear F. unfold enabled, capture_button_disabled in En.
    apply andb_true_iff in En. destruct En as (_ & En).
    apply negb_true_iff in En. specialize (Hidle En).
    apply length_zero_iff_nil in Hidle.
    change (exec (handler (ClickCapture h)) w) with (exec (call (captureImage h)) w).
    assert (E : exec (call (captureImage h)) w = exec (captureImage h) w).
    { unfold exec, call. destruct (captureImage h w) as [[[]| |x] w']; reflexivity. }
    rewrite E.
    destruct (captureImage_outcomes h w) as [(Ht & Hp) | (Ht & Hp)];
      rewrite Ht, Hidle; cbn; split; auto.
    rewrite Hp. discriminate.
  - (* the timer *)
    clear F. unfold enabled in En.
    destruct (timers (env w)) as [|[ms []] rest] eqn:Et; [discriminate|].
    assert (E : exec (handler TimerFires) w
                = {| st := set_isProcessing false
                             (set_translatedText SAMPLE_TRANSLATION (st w));
                     env := set_timers rest (env w) |}).
    { unfold exec, call, handler, bind, gets_env. cbn [env]. rewrite Et. reflexivity. }
    rewrite E. cbn in *. split; intros; lia.
Qed.

Lemma run_invariant (P : World -> Prop) :
  (forall e w, P w -> P (dispatch e w)) ->
  forall es w, P w -> P (run es w).
Proof.
  intros Hstep es. induction es as [|e es IH]; intros w Hw.
  - exact Hw.
  - cbn. apply IH. apply Hstep. exact Hw.
Qed.

Lemma mount_single_translation (synthesis : bool) :
  single_translation (mount synthesis).
Proof. destruct synthesis; split; cbn; auto. Qed.

(** C5: the capture button carries the processing flag as its [disabled]
    attribute; in a state where the flag is true a click on it runs nothing
    (the world is unchanged, no second delay is armed); and in every state
    the component reaches from mount, at most one mock delay is in flight,
    and none while the flag is false. *)
Theorem capture_single_in_flight (w : World) (h : CanvasHost) :
  isProcessing (st w) = true ->
  capture_button_disabled (st w) = true
  /\ dispatch (ClickCapture h) w = w
  /\ delays_in_flight (dispatch (ClickCapture h) w) = delays_in_flight w
  /\ forall (synthesis : bool) (es : list Event),
       (delays_in_flight (run es (mount synthesis)) <= 1)%nat
       /\ (isProcessing (st (run es (mount synthesis))) = false ->
           delays_in_flight (run es (mount synthesis)) = 0%nat).
Proof.
  intros Hp.
  assert (E : dispatch (ClickCapture h) w = w).
  { unfold dispatch, enabled, capture_button_disabled. rewrite Hp.
    rewrite andb_false_r. reflexivity. }
  repeat split.
  - exact Hp.
  - exact E.
  - rewrite E. reflexivity.
  - apply (run_invariant single_translation dispatch_single_translation es
             (mount synthesis) (mount_single_translation synthesis)).
  - apply (run_invariant single_translation dispatch_single_translation es
             (mount synthesis) (mount_single_translation synthesis)).
Qed.

Lemma capture_single_in_flight_witness :
  dispatch (ClickCapture host_ok) w_busy = w_busy
  /\ (delays_in_flight
        (run [MediaSettles (inr 7%N); ClickCapture host_ok; ClickDiscard;
              ClickCapture host_ok]
             (mount true)) <= 1)%nat.
Proof.
  destruct (capture_single_in_flight w_busy host_ok eq_refl) as (_ & E & _ & H).
  split.
  - exact E.
  - apply (H true).
Defined.

(** ** One utterance at a time *)

(** C2, as the claim states it, fails: with an utterance active, the
    speaking flag true and the default (valid) settings, playback start
    cancels nothing; the new utterance is queued behind the previous one and
    two utterances are held. *)
Lemma speakText_does_not_cancel :
  isSpeaking (st w_speaking) = true
  /\ valid_settings (ttsSettings (st w_speaking))
  /\ utterances w_speaking = [u_greeting]
  /\ utterances (exec speakText w_speaking) = [u_greeting; u_greeting]
  /\ ~ (List.length (utterances (exec speakText w_speaking)) <= 1)%nat.
Proof.
  repeat split; try (cbn; lia); try (cbv; discriminate).
  cbn. auto.
Qed.

Lemma speakText_appends (w : World) (q : list Utterance) :
  truthy (translatedText (st w)) = true ->
  speechSynthesis (env w) = Some q ->
  call speakText w
  = (Normal tt,
     {| st := set_isSpeaking true (st w);
        env := set_speechSynthesis
                 (Some (q ++ [ {| u_text := translatedText (st w);
                                  u_lang := language (ttsSettings (st w));
                                  u_pitch := pitch (ttsSettings (st w));
                                  u_rate := rate (ttsSettings (st w));
                                  u_volume := volume (ttsSettings (st w)) |} ]))
                 (env w) |}).
Proof.
  intros Ht Hq. open_world w. cbn in Ht, Hq. subst. js_unfold. rewrite Ht. reflexivity.
Qed.

Lemma speakText_noop (w : World) :
  truthy (translatedText (st w)) = false \/ speechSynthesis (env w) = None ->
  call speakText w = (Normal tt, w).
Proof.
  intros H. open_world w. cbn in H. js_unfold.
  destruct H as [H | H]; rewrite H; cbn.
  - reflexivity.
  - rewrite orb_true_r. reflexivity.
Qed.

Lemma rerender_single_utterance (before : State) (w : World) :
  single_utterance w -> single_utterance (rerender before w).
Proof.
  destruct (rerender_frame before w) as (Hs & _ & [Hq | Hq]);
    unfold single_utterance; rewrite Hs, Hq; cbn; intuition lia.
Qed.

Lemma speaker_click_while_speaking (w : World) :
  isSpeaking (st w) = true ->
  exec (handler ClickSpeaker) w = exec stopSpeaking w.
Proof.
  intros H. unfold exec, handler, bind, gets, call at 1. cbv beta iota. rewrite H.
  unfold call. destruct (stopSpeaking w) as [[[]| |x] w']; reflexivity.
Qed.

Lemma speaker_click_while_silent (w : World) :
  isSpeaking (st w) = false ->
  exec (handler ClickSpeaker) w = exec speakText w.
Proof.
  intros H. unfold exec, handler, bind, gets, call at 1. cbv beta iota. rewrite H.
  unfold call. destruct (speakText w) as [[[]| |x] w']; reflexivity.
Qed.

Lemma stopSpeaking_utterances (w : World) :
  utterances (exec stopSpeaking w) = []
  /\ isSpeaking (st (exec stopSpeaking w)) = false.
Proof.
  open_world w. js_unfold. destruct speechSynthesis0; split; reflexivity.
Qed.

(** A click on the speaker button keeps the queue at one utterance at
    most, with none while the flag is false. *)
Lemma speaker_click_single_utterance (w : World) :
  single_utterance w -> single_utterance (dispatch ClickSpeaker w).
Proof.
  intros Hw. unfold dispatch.
  destruct (enabled ClickSpeaker w) eqn:En; [|exact Hw].
  apply rerender_single_utterance.
  destruct Hw as (Hle & Hidle).
  unfold single_utterance in *.
  destruct (isSpeaking (st w)) eqn:Hs.
  - rewrite (speaker_click_while_speaking w Hs).
    destruct (stopSpeaking_utterances w) as (Hq & Hf). rewrite Hq. cbn. auto.
  - rewrite (speaker_click_while_silent w Hs). specialize (Hidle eq_refl).
    destruct (truthy (translatedText (st w))) eqn:Ht.
    + destruct (speechSynthesis (env w)) as [q|] eqn:Hq.
      * unfold exec. rewrite (speakText_appends w q Ht Hq). cbn.
        unfold utterances in Hidle. rewrite Hq in Hidle. subst q.
        cbn. split; [lia | discriminate].
      * unfold exec. rewrite (speakText_noop w (or_intror Hq)). cbn.
        rewrite Hidle. cbn. auto.
    + unfold exec. rewrite (speakText_noop w (or_introl Ht)). cbn.
      rewrite Hidle. cbn. auto.
Qed.

(** Playback start removes nothing from the queue, whatever the state. *)
Lemma speakText_keeps_queue (w : World) :
  exists l : list Utterance,
    utterances (exec speakText w) = utterances w ++ l.
Proof.
  destruct (truthy (translatedText (st w))) eqn:Ht.
  - destruct (speechSynthesis (env w)) as [q|] eqn:Hq.
    + exists [ {| u_text := translatedText (st w);
                  u_lang := language (ttsSettings (st w));
                  u_pitch := pitch (ttsSettings (st w));
                  u_rate := rate (ttsSettings (st w));
                  u_volume := volume (ttsSettings (st w)) |} ].
      unfold exec. rewrite (speakText_appends w q Ht Hq).
      unfold utterances. cbn. rewrite Hq. reflexivity.
    + exists []. unfold exec. rewrite (speakText_noop w (or_intror Hq)).
      cbn. rewrite app_nil_r. reflexivity.
  - exists []. unfold exec. rewrite (speakText_noop w (or_introl Ht)).
    cbn. rewrite app_nil_r. reflexivity.
Qed.

(** C2 (amended): playback start does not cancel the previous utterance,
    and in no state does it remove anything from the queue: with a non-empty
    result and the speech facility present it sets the speaking flag and
    queues the new utterance, carrying the current text and settings,
    behind whatever is already queued.  While the speaking flag is true the
    speaker button does not run playback start at all: it runs
    stop-speaking, and that click empties the queue, clears the flag and
    submits nothing.  The button runs playback start only while the flag is
    false, and then, if no utterance is queued, at most one is queued
    afterwards. *)
Theorem speaker_button_single_utterance (w : World) :
  (forall q : list Utterance,
     truthy (translatedText (st w)) = true ->
     speechSynthesis (env w) = Some q ->
     isSpeaking (st (exec speakText w)) = true
     /\ utterances (exec speakText w)
        = q ++ [ {| u_text := translatedText (st w);
                    u_lang := language (ttsSettings (st w));
                    u_pitch := pitch (ttsSettings (st w));
                    u_rate := rate (ttsSettings (st w));
                    u_volume := volume (ttsSettings (st w)) |} ])
  /\ (isSpeaking (st w) = true ->
      result_controls_rendered (st w) = true ->
      exec (handler ClickSpeaker) w = exec stopSpeaking w
      /\ utterances (dispatch ClickSpeaker w) = []
      /\ isSpeaking (st (dispatch ClickSpeaker w)) = false)
  /\ (isSpeaking (st w) = false ->
      exec (handler ClickSpeaker) w = exec speakText w
      /\ (utterances w = [] ->
          (List.length (utterances (dispatch ClickSpeaker w)) <= 1)%nat))
  /\ (exists l : list Utterance,
        utterances (exec speakText w) = utterances w ++ l).
Proof.
  split; [|split; [|split]].
  - intros q Ht Hq. unfold exec. rewrite (speakText_appends w q Ht Hq).
    split; reflexivity.
  - intros Hs Hr. split; [exact (speaker_click_while_speaking w Hs)|].
    unfold dispatch, enabled. rewrite Hr.
    rewrite (speaker_click_while_speaking w Hs).
    destruct (stopSpeaking_utterances w) as (Hq & Hf).
    destruct (rerender_frame (st w) (exec stopSpeaking w)) as (Hst & _ & [Hu | Hu]).
    + rewrite Hst, Hu. auto.
    + rewrite Hst, Hu. auto.
  - intros Hs. split; [exact (speaker_click_while_silent w Hs)|].
    intros Hq.
    assert (Hw : single_utterance w).
    { split; [rewrite Hq; cbn; lia | intros _; exact Hq]. }
    apply (speaker_click_single_utterance w Hw).
  - apply speakText_keeps_queue.
Qed.

Lemma speaker_button_single_utterance_witness :
  utterances (exec speakText w_speaking) = [u_greeting; u_greeting]
  /\ utterances (dispatch ClickSpeaker w_speaking) = []
  /\ isSpeaking (st (dispatch ClickSpeaker w_speaking)) = false
  /\ (List.length (utterances (dispatch ClickSpeaker w_hello)) <= 1)%nat.
Proof.
  destruct (speaker_button_single_utterance w_speaking) as (Hspeak & Hstop & _).
  destruct (speaker_button_single_utterance w_hello) as (_ & _ & Hstart & _).
  split; [|split; [|split]].
  - exact (proj2 (Hspeak [u_greeting] eq_refl eq_refl)).
  - exact (proj1 (proj2 (Hstop eq_refl eq_refl))).
  - exact (proj2 (proj2 (Hstop eq_refl eq_refl))).
  - exact (proj2 (Hstart eq_refl) eq_refl).
Defined.

(** ** Speech settings stay in range *)

Lemma language_offered_In (code : JSString) :
  language_offered code = true -> In code (map fst LANGUAGE_OPTIONS).
Proof.
  unfold language_offered. intros H.
  apply existsb_exists in H. destruct H as (o & Ho & He).
  unfold JSString_eqb in He.
  destruct (list_eq_dec N.eq_dec (fst o) code) as [<-|]; [|discriminate].
  apply in_map. exact Ho.
Qed.

Lemma in_range_Qle (lo hi v : Q) :
  in_range lo hi v = true -> (lo <= v <= hi)%Q.
Proof.
  unfold in_range. intros H. apply andb_true_iff in H.
  destruct H as (Hl & Hh). split; apply Qle_bool_iff; assumption.
Qed.

(** Only the controls of the settings panel touch the speech settings. *)
Lemma handler_frame_settings (e : Event) (w : World) :
  match e with
  | ClickLanguage _ | ChangeRate _ | ChangePitch _ => True
  | _ => ttsSettings (st (exec (handler e) w)) = ttsSettings (st w)
  end.
Proof.
  destruct e; trivial; open_world w; js_unfold.
  all: try reflexivity.
  - destruct videoRef0, canvasRef0, h as [[] [d|] [x|u]]; reflexivity.
  - destruct capturedImage0 as [[|c i]|]; reflexivity.
  - destruct (truthy (trim inputText0)); reflexivity.
  - destruct isSpeaking0; cbn.
    + destruct speechSynthesis0; reflexivity.
    + destruct (truthy translatedText0), speechSynthesis0; reflexivity.
  - destruct timers0 as [|[ms []] ts]; reflexivity.
  - destruct pendingMedia0 as [|[] ps]; cbn; try reflexivity.
    all: destruct r as [x|x]; cbn; try reflexivity.
    all: destruct videoRef0; reflexivity.
Qed.

Lemma dispatch_valid_settings (e : Event) (w : World) :
  valid_settings (ttsSettings (st w)) ->
  valid_settings (ttsSettings (st (dispatch e w))).
Proof.
  intros Hw. unfold dispatch. destruct (enabled e w) eqn:En; [|exact Hw].
  destruct (rerender_frame (st w) (exec (handler e) w)) as (Hs & _). rewrite Hs.
  pose proof (handler_frame_settings e w) as F.
  destruct e; try (rewrite F; exact Hw); clear F.
  all: unfold enabled in En; apply andb_true_iff in En; destruct En as (_ & En).
  all: destruct Hw as (Hl & Hp & Hr & Hv).
  all: clear Hs; open_world w; unfold valid_settings; js_unfold.
  - apply language_offered_In in En.
    repeat split; first [exact En | apply Hp | apply Hr | apply Hv].
  - apply in_range_Qle in En.
    repeat split; first [exact Hl | apply En | apply Hp | apply Hv].
  - apply in_range_Qle in En.
    repeat split; first [exact Hl | apply En | apply Hr | apply Hv].
Qed.

(** The settings of every state the component reaches are valid: language
    among the five offered, pitch in [0.5, 2], rate in [0.5, 1.5], volume 1. *)
Lemma run_valid_settings (synthesis : bool) (es : list Event) :
  valid_settings (ttsSettings (st (run es (mount synthesis)))).
Proof.
  apply (run_invariant (fun w => valid_settings (ttsSettings (st w)))
           dispatch_valid_settings es (mount synthesis)).
  destruct synthesis; cbn; repeat split; try (cbv; discriminate);
    left; reflexivity.
Qed.

(** ** Scenarios *)

(** Camera granted, capture, the delay elapses: the result is the sample
    string and nothing is processing any more. *)
Example scenario_capture_then_sample :
  let w := run [MediaSettles (inr 7%N); ClickCapture host_ok; TimerFires]
               (mount true) in
  translatedText (st w) = js "Hello! How are you? (Sample Sign Language Translation)"
  /\ isProcessing (st w) = false
  /\ capturedImage (st w) = Some (js "data:image/jpeg;base64,AAAA")
  /\ delays_in_flight w = 0%nat.
Proof. repeat split. Qed.

(** A second camera activation binds its stream, and leaving camera mode
    then stops it; the stream of the first activation, acquired while no
    preview was on screen, is still live. *)
Example scenario_second_activation_released :
  let w := run [MediaSettles (inr 7%N); ClickTextTab; ClickCameraTab;
                MediaSettles (inr 8%N); ClickTextTab]
               (mount true) in
  streamRef (env w) = Some 8%N /\ liveStreams (env w) = [7%N].
Proof. repeat split. Qed.

(** [captureImage] carries no guard of its own: called directly in a state
    that is still processing (reached by capture, then discard), it arms a
    second delay.  The component never calls it that way; its only caller
    is the capture button, disabled in that state. *)
Example captureImage_itself_unguarded :
  let w := run [MediaSettles (inr 7%N); ClickCapture host_ok; ClickDiscard]
               (mount true) in
  isProcessing (st w) = true
  /\ delays_in_flight w = 1%nat
  /\ delays_in_flight (exec (captureImage host_ok) w) = 2%nat
  /\ delays_in_flight (dispatch (ClickCapture host_ok) w) = 1%nat.
Proof. repeat split. Qed.

(** * Further properties of the component *)

(** ** Camera streams: binding and release *)

Lemma filter_idempotent {A} (f : A -> bool) (l : list A) :
  filter f (filter f l) = filter f l.
Proof.
  induction l as [|a l IH]; cbn.
  - reflexivity.
  - destruct (f a) eqn:E; cbn; rewrite ?E, IH; reflexivity.
Qed.

Lemma not_In_filter_neq (s : StreamId) (l : list StreamId) :
  ~ In s (filter (fun x => negb (N.eqb x s)) l).
Proof.
  intros H. apply filter_In in H. destruct H as (_ & H).
  rewrite N.eqb_refl in H. discriminate.
Qed.

Lemma In_filter_neq (s r : StreamId) (l : list StreamId) :
  In s l -> s <> r -> In s (filter (fun x => negb (N.eqb x r)) l).
Proof.
  intros Hin Hne. apply filter_In. split; [exact Hin|].
  apply negb_true_iff. apply N.eqb_neq. exact Hne.
Qed.

(** What the cleanup leaves of the live streams. *)
Lemma cleanup_liveStreams (w : World) :
  liveStreams (env (exec cleanup_translateMode w))
  = match streamRef (env w) with
    | Some s => filter (fun x => negb (N.eqb x s)) (liveStreams (env w))
    | None => liveStreams (env w)
    end.
Proof.
  open_world w. js_unfold.
  destruct streamRef0, speechSynthesis0; reflexivity.
Qed.

Lemma cleanup_streamRef (w : World) :
  streamRef (env (exec cleanup_translateMode w)) = streamRef (env w).
Proof.
  open_world w. js_unfold.
  destruct streamRef0, speechSynthesis0; reflexivity.
Qed.

(** What a granted request does when a [<video>] is attached; the effect
    and the retry button share it. *)
Lemma granted_with_video (k : MediaContinuation) (w : World) (v : VideoEl)
      (s : StreamId) :
  videoRef (env w) = Some v ->
  call (resume_media k (inr s)) w
  = (Normal tt,
     {| st := set_hasCameraPermission true (st w);
        env := set_streamRef (Some s)
                 (set_videoRef
                    (Some {| srcObject := Some s; videoWidth := videoWidth v;
                             videoHeight := videoHeight v |})
                    (set_liveStreams (liveStreams (env w) ++ [s]) (env w))) |}).
Proof.
  intros Hv. open_world w. cbn in Hv. subst.
  destruct k; js_unfold; reflexivity.
Qed.

Lemma granted_without_video (k : MediaContinuation) (w : World) (s : StreamId) :
  videoRef (env w) = None ->
  call (resume_media k (inr s)) w
  = (Normal tt,
     {| st := set_hasCameraPermission true (st w);
        env := set_liveStreams (liveStreams (env w) ++ [s]) (env w) |}).
Proof.
  intros Hv. open_world w. cbn in Hv. subst.
  destruct k; js_unfold; reflexivity.
Qed.

(** X1: when a camera request is granted while a [<video>] is attached,
    whether by the effect or by the retry button, the stream is live, bound
    to the video and held in [streamRef], permission is marked granted, and
    the cleanup that follows stops that stream. *)
Theorem bound_stream_released_by_cleanup (k : MediaContinuation) (w : World)
        (v : VideoEl) (s : StreamId) :
  videoRef (env w) = Some v ->
  let w1 := exec (resume_media k (inr s)) w in
  hasCameraPermission (st w1) = true
  /\ streamRef (env w1) = Some s
  /\ option_map srcObject (videoRef (env w1)) = Some (Some s)
  /\ In s (liveStreams (env w1))
  /\ ~ In s (liveStreams (env (exec cleanup_translateMode w1)))
  /\ ~ In s (liveStreams (env (unmount w1))).
Proof.
  intros Hv w1.
  assert (E : w1 = snd (call (resume_media k (inr s)) w)).
  { subst w1. unfold exec.
    rewrite (granted_with_video k w v s Hv). reflexivity. }
  rewrite (granted_with_video k w v s Hv) in E. cbn [snd] in E.
  assert (Hr : streamRef (env w1) = Some s) by (rewrite E; reflexivity).
  repeat split.
  - rewrite E. reflexivity.
  - exact Hr.
  - rewrite E. reflexivity.
  - rewrite E. cbn. apply in_or_app. right. left. reflexivity.
  - rewrite cleanup_liveStreams, Hr. apply not_In_filter_neq.
  - unfold unmount. rewrite cleanup_liveStreams, Hr. apply not_In_filter_neq.
Qed.

Lemma bound_stream_released_by_cleanup_witness :
  streamRef (env (exec (resume_media K_setupCamera_afterGetUserMedia (inr 9%N)) w_preview))
  = Some 9%N
  /\ ~ In 9%N (liveStreams
                 (env (exec cleanup_translateMode
                         (exec (resume_media K_setupCamera_afterGetUserMedia (inr 9%N))
                               w_preview)))).
Proof.
  destruct (bound_stream_released_by_cleanup K_setupCamera_afterGetUserMedia
              w_preview
              {| srcObject := Some 7%N; videoWidth := 640; videoHeight := 480 |}
              9%N eq_refl) as (_ & Hr & _ & _ & Hc & _).
  split; [exact Hr | exact Hc].
Defined.

(** X2: when the retry button's request is granted while no [<video>] is
    attached, permission is marked granted and the stream is live, but
    neither [streamRef] nor any element records it, and the cleanup leaves
    it running. *)
Theorem requestCameraPermission_unbound_stream_leaks (w : World) (s : StreamId) :
  videoRef (env w) = None ->
  streamRef (env w) <> Some s ->
  let w1 := exec (requestCameraPermission_afterGetUserMedia (inr s)) w in
  hasCameraPermission (st w1) = true
  /\ streamRef (env w1) = streamRef (env w)
  /\ videoRef (env w1) = None
  /\ In s (liveStreams (env w1))
  /\ In s (liveStreams (env (exec cleanup_translateMode w1))).
Proof.
  intros Hv Hs w1.
  pose proof (granted_without_video K_requestCameraPermission_afterGetUserMedia
                w s Hv) as G.
  cbn [resume_media] in G.
  assert (E : w1 = {| st := set_hasCameraPermission true (st w);
                      env := set_liveStreams (liveStreams (env w) ++ [s]) (env w) |}).
  { subst w1. unfold exec. rewrite G. reflexivity. }
  assert (Hl : In s (liveStreams (env w1))).
  { rewrite E. cbn. apply in_or_app. right. left. reflexivity. }
  repeat split.
  - rewrite E. reflexivity.
  - rewrite E. reflexivity.
  - rewrite E. exact Hv.
  - exact Hl.
  - rewrite cleanup_liveStreams.
    destruct (streamRef (env w1)) as [r|] eqn:Hr; [|exact Hl].
    apply In_filter_neq; [exact Hl|].
    intros ->. apply Hs. rewrite E in Hr. cbn in Hr. exact Hr.
Qed.

Lemma requestCameraPermission_unbound_stream_leaks_witness :
  In 9%N (liveStreams
            (env (exec cleanup_translateMode
                    (exec (requestCameraPermission_afterGetUserMedia (inr 9%N))
                          w_busy)))).
Proof.
  destruct (requestCameraPermission_unbound_stream_leaks w_busy 9%N eq_refl)
    as (_ & _ & _ & _ & H).
  - discriminate.
  - exact H.
Defined.



(** X4: the cleanup never throws, leaves the React state and [streamRef]
    as they are (the speaking flag and the stale stream reference
    included), stops the stream [streamRef] holds, empties the speech
    queue, and running it again changes nothing more. *)
Theorem cleanup_translateMode_idempotent (w : World) :
  fst (call cleanup_translateMode w) = Normal tt
  /\ st (exec cleanup_translateMode w) = st w
  /\ streamRef (env (exec cleanup_translateMode w)) = streamRef (env w)
  /\ utterances (exec cleanup_translateMode w) = []
  /\ (forall s, streamRef (env w) = Some s ->
        ~ In s (liveStreams (env (exec cleanup_translateMode w))))
  /\ exec cleanup_translateMode (exec cleanup_translateMode w)
     = exec cleanup_translateMode w.
Proof.
  split; [|split; [|split; [|split; [|split]]]].
  - open_world w. js_unfold. destruct streamRef0, speechSynthesis0; reflexivity.
  - apply cleanup_frame.
  - apply cleanup_streamRef.
  - apply cleanup_frame.
  - intros s Hs. rewrite cleanup_liveStreams, Hs. apply not_In_filter_neq.
  - open_world w. js_unfold.
    destruct streamRef0, speechSynthesis0; cbn; unfold set_liveStreams; cbn;
      rewrite ?filter_idempotent, ?app_nil_r; reflexivity.
Qed.

Lemma cleanup_translateMode_idempotent_witness :
  ~ In 7%N (liveStreams (env (exec cleanup_translateMode w_preview))).
Proof.
  destruct (cleanup_translateMode_idempotent w_preview) as (_ & _ & _ & _ & H & _).
  apply (H 7%N). reflexivity.
Defined.

(** ** Download *)

Lemma js_inj (a b : string) : js a = js b -> a = b.
Proof.
  unfold js. intros H.
  rewrite <- (string_of_list_ascii_of_string a), <- (string_of_list_ascii_of_string b).
  f_equal.
  revert H. generalize (list_ascii_of_string a) (list_ascii_of_string b).
  intros l. induction l as [|x l IH]; intros [|y m] H; cbn in H; try discriminate.
  - reflexivity.
  - injection H as Hx Hl. f_equal.
    + rewrite <- (ascii_N_embedding x), <- (ascii_N_embedding y), Hx. reflexivity.
    + apply IH. exact Hl.
Qed.

Lemma N_to_uint_nonnil (n : N) : N.to_uint n <> Decimal.Nil.
Proof.
  destruct n as [|p]; cbn.
  - discriminate.
  - apply DecimalPos.Unsigned.to_uint_nonnil.
Qed.

(** The decimal print of a number determines the number. *)
Lemma numToString_inj (n m : N) : numToString n = numToString m -> n = m.
Proof.
  unfold numToString. intros H. apply js_inj in H.
  apply DecimalN.Unsigned.to_uint_inj.
  pose proof (NilZero.usu (N.to_uint n) (N_to_uint_nonnil n)) as Hn.
  pose proof (NilZero.usu (N.to_uint m) (N_to_uint_nonnil m)) as Hm.
  rewrite H in Hn. rewrite Hn in Hm. injection Hm as Hm. exact Hm.
Qed.

(** X5: download never changes the React state; with no captured image
    (null or empty) it does nothing at all; with one it saves exactly that
    image once, under [sign_language_capture_<now>.jpg], and captures saved
    at different milliseconds get different file names. *)
Theorem downloadImage_saves_captured_image (w : World) (now : N) :
  fst (call (downloadImage now) w) = Normal tt
  /\ st (exec (downloadImage now) w) = st w
  /\ (truthy_opt (capturedImage (st w)) = false ->
      exec (downloadImage now) w = w)
  /\ (forall href : JSString,
        capturedImage (st w) = Some href -> truthy href = true ->
        downloads (env (exec (downloadImage now) w))
        = downloads (env w)
          ++ [(href, js "sign_language_capture_" ++ numToString now ++ js ".jpg")])
  /\ (forall now' : N,
        downloads (env (exec (downloadImage now) w))
        = downloads (env (exec (downloadImage now') w)) ->
        truthy_opt (capturedImage (st w)) = true ->
        now = now').
Proof.
  open_world w. js_unfold.
  destruct capturedImage0 as [[|c href]|]; cbn; repeat split;
    try discriminate; try (intros h [= <-]; discriminate).
  - intros h [= <-] _. reflexivity.
  - intros now' H _. apply app_inv_head in H. injection H as H.
    apply app_inv_tail in H. apply numToString_inj. exact H.
Qed.

Lemma downloadImage_saves_captured_image_witness :
  downloads (env (exec (downloadImage 1700000000000%N) w_busy))
  = [(js "data:image/jpeg;base64,AAAA", js "sign_language_capture_1700000000000.jpg")]
  /\ exec (downloadImage 1700000000000%N) w_hello = w_hello.
Proof.
  destruct (downloadImage_saves_captured_image w_busy 1700000000000%N)
    as (_ & _ & _ & H & _).
  destruct (downloadImage_saves_captured_image w_hello 1700000000000%N)
    as (_ & _ & H0 & _).
  split.
  - rewrite (H (js "data:image/jpeg;base64,AAAA") eq_refl eq_refl). reflexivity.
  - exact (H0 eq_refl).
Defined.

(** ** Speech settings *)

(** X6: toggling the settings panel twice restores the world exactly, and
    one toggle changes nothing but [showSettings]. *)
Theorem toggleSettings_involutive (w : World) :
  exec toggleSettings (exec toggleSettings w) = w
  /\ showSettings (st (exec toggleSettings w)) = negb (showSettings (st w))
  /\ set_showSettings (showSettings (st w)) (st (exec toggleSettings w)) = st w
  /\ env (exec toggleSettings w) = env w.
Proof.
  open_world w. js_unfold. rewrite negb_involutive. repeat split.
Qed.

(** X7: a settings update writes its own key only: updates of different
    keys commute, of two updates of one key the later wins, and no update
    changes the volume or anything outside [ttsSettings]. *)
Theorem updateTtsSetting_composes (w : World) (c c' : JSString) (r r' p p' : Q) :
  let upd u := exec (updateTtsSetting u) in
  upd (SetRate r) (upd (SetLanguage c) w) = upd (SetLanguage c) (upd (SetRate r) w)
  /\ upd (SetPitch p) (upd (SetLanguage c) w) = upd (SetLanguage c) (upd (SetPitch p) w)
  /\ upd (SetPitch p) (upd (SetRate r) w) = upd (SetRate r) (upd (SetPitch p) w)
  /\ upd (SetLanguage c') (upd (SetLanguage c) w) = upd (SetLanguage c') w
  /\ upd (SetRate r') (upd (SetRate r) w) = upd (SetRate r') w
  /\ upd (SetPitch p') (upd (SetPitch p) w) = upd (SetPitch p') w
  /\ forall u : SettingUpdate,
       volume (ttsSettings (st (upd u w))) = volume (ttsSettings (st w))
       /\ set_ttsSettings (ttsSettings (st w)) (st (upd u w)) = st w
       /\ env (upd u w) = env w.
Proof.
  open_world w. destruct ttsSettings0. cbv zeta. js_unfold.
  repeat split; destruct u; reflexivity.
Qed.

Lemma speakText_utterance_of (w : World) (q : list Utterance) :
  truthy (translatedText (st w)) = true ->
  speechSynthesis (env w) = Some q ->
  exec speakText w
  = {| st := set_isSpeaking true (st w);
       env := set_speechSynthesis (Some (q ++ [utterance_of (st w)])) (env w) |}.
Proof.
  intros Ht Hq. unfold exec. rewrite (speakText_appends w q Ht Hq). reflexivity.
Qed.

(** X8: a settings update does not reach an utterance already queued: the
    queued utterance keeps the settings it was started with, and the next
    playback start is the first to carry the new ones. *)
Theorem settings_apply_to_next_utterance (w : World) (q : list Utterance)
        (u : SettingUpdate) :
  truthy (translatedText (st w)) = true ->
  speechSynthesis (env w) = Some q ->
  let w1 := exec (updateTtsSetting u) (exec speakText w) in
  utterances w1 = q ++ [utterance_of (st w)]
  /\ utterances (exec speakText w1)
     = q ++ [utterance_of (st w); utterance_of (st w1)]
  /\ ttsSettings (st w1) = ttsSettings (st (exec (updateTtsSetting u) w))
  /\ u_text (utterance_of (st w1)) = translatedText (st w).
Proof.
  intros Ht Hq w1.
  assert (E : w1 = exec (updateTtsSetting u)
                     {| st := set_isSpeaking true (st w);
                        env := set_speechSynthesis
                                 (Some (q ++ [utterance_of (st w)])) (env w) |}).
  { subst w1. rewrite (speakText_utterance_of w q Ht Hq). reflexivity. }
  assert (Hq1 : speechSynthesis (env w1) = Some (q ++ [utterance_of (st w)])).
  { rewrite E. reflexivity. }
  assert (Ht1 : truthy (translatedText (st w1)) = true).
  { rewrite E. exact Ht. }
  repeat split.
  - unfold utterances. rewrite Hq1. reflexivity.
  - rewrite (speakText_utterance_of w1 _ Ht1 Hq1). unfold utterances. cbn.
    rewrite <- app_assoc. reflexivity.
  - rewrite E. reflexivity.
  - rewrite E. reflexivity.
Qed.

Lemma settings_apply_to_next_utterance_witness :
  utterances (exec speakText
                (exec (updateTtsSetting (SetLanguage (js "fr")))
                      (exec speakText w_speaking)))
  = [u_greeting; u_greeting;
     {| u_text := js "Hi"; u_lang := js "fr"; u_pitch := 1; u_rate := 3 # 4;
        u_volume := 1 |}].
Proof.
  destruct (settings_apply_to_next_utterance w_speaking [u_greeting]
              (SetLanguage (js "fr")) eq_refl eq_refl) as (_ & H & _).
  rewrite H. reflexivity.
Defined.

(** X9: one utterance from start to finish: started with an empty queue and
    the flag false, playback sets the flag and queues the utterance; when
    it ends the world is exactly as before playback; when it fails the same
    holds but for one ["Speech error"] entry on the console. *)
Theorem speak_then_end_restores (w : World) :
  truthy (translatedText (st w)) = true ->
  speechSynthesis (env w) = Some [] ->
  isSpeaking (st w) = false ->
  let w1 := exec speakText w in
  isSpeaking (st w1) = true
  /\ utterances w1 = [utterance_of (st w)]
  /\ exec (handler UtteranceEnds) w1 = w
  /\ exec (handler UtteranceErrors) w1
     = {| st := st w;
          env := set_console (console (env w) ++ [ConsoleError (js "Speech error") None])
                   (env w) |}.
Proof.
  intros Ht Hq Hs w1. subst w1.
  rewrite (speakText_utterance_of w [] Ht Hq).
  open_world w. cbn in Ht, Hq, Hs. subst. js_unfold. repeat split.
Qed.

Lemma speak_then_end_restores_witness :
  exec (handler UtteranceEnds)
       (exec speakText
             {| st := set_translatedText (js "Hi") initialState;
                env := initialEnv true |})
  = {| st := set_translatedText (js "Hi") initialState; env := initialEnv true |}.
Proof.
  destruct (speak_then_end_restores
              {| st := set_translatedText (js "Hi") initialState;
                 env := initialEnv true |} eq_refl eq_refl eq_refl)
    as (_ & _ & H & _).
  exact H.
Defined.

(** X10: speakText does nothing when there is nothing to say or no speech
    facility: with an empty translation result, or without
    [speechSynthesis], the call returns with the world unchanged; the
    speaking flag is not set and nothing is queued. *)
Theorem speakText_silent_without_text_or_facility (w : World) :
  translatedText (st w) = [] \/ speechSynthesis (env w) = None ->
  call speakText w = (Normal tt, w).
Proof.
  intros [H | H].
  - apply speakText_noop. left. rewrite H. reflexivity.
  - apply speakText_noop. right. exact H.
Qed.

Lemma speakText_silent_without_text_or_facility_witness :
  exec speakText w_hello = w_hello
  /\ exec speakText {| st := st w_speaking; env := initialEnv false |}
     = {| st := st w_speaking; env := initialEnv false |}.
Proof.
  unfold exec. split.
  - rewrite (speakText_silent_without_text_or_facility w_hello (or_introl eq_refl)).
    reflexivity.
  - rewrite (speakText_silent_without_text_or_facility
               {| st := st w_speaking; env := initialEnv false |}
               (or_intror eq_refl)).
    reflexivity.
Defined.

(** ** Invariants of the reachable states *)

Lemma dispatch_volume (e : Event) (w : World) :
  volume (ttsSettings (st (dispatch e w))) = volume (ttsSettings (st w)).
Proof.
  unfold dispatch. destruct (enabled e w); [|reflexivity].
  destruct (rerender_frame (st w) (exec (handler e) w)) as (Hs & _). rewrite Hs.
  pose proof (handler_frame_settings e w) as F.
  destruct e; try (rewrite F; reflexivity); clear F Hs.
  all: open_world w; js_unfold; reflexivity.
Qed.

(** X11: in every state the component reaches from mount the speech
    settings are in range: the language is one of the five offered, the
    pitch lies in [0.5, 2], the rate in [0.5, 1.5], and the volume is still
    the initial 1, since no control writes it. *)
Theorem reachable_settings_in_range (synthesis : bool) (es : list Event) :
  settings_in_range (ttsSettings (st (run es (mount synthesis)))).
Proof.
  apply (run_invariant (fun w => settings_in_range (ttsSettings (st w)))).
  - intros e w (Hv & Hvol). split.
    + apply dispatch_valid_settings. exact Hv.
    + rewrite dispatch_volume. exact Hvol.
  - destruct synthesis; cbn; repeat split; try (cbv; discriminate);
      left; reflexivity.
Qed.

Lemma commit_refs (w : World) : refs_follow_render (commit w).
Proof.
  unfold refs_follow_render, commit.
  destruct (preview_rendered (st w)) eqn:E; cbn [st env]; rewrite E.
  - destruct (videoRef (env w)), (canvasRef (env w)); split; reflexivity.
  - split; reflexivity.
Qed.

Lemma cleanup_refs (w : World) :
  videoRef (env (exec cleanup_translateMode w)) = videoRef (env w)
  /\ canvasRef (env (exec cleanup_translateMode w)) = canvasRef (env w).
Proof.
  open_world w. js_unfold. destruct streamRef0, speechSynthesis0; split; reflexivity.
Qed.

Lemma effect_refs (w : World) :
  videoRef (env (exec effect_translateMode w)) = videoRef (env w)
  /\ canvasRef (env (exec effect_translateMode w)) = canvasRef (env w).
Proof.
  open_world w. unfold effect_translateMode. js_unfold.
  destruct translateMode0; split; reflexivity.
Qed.

Lemma rerender_refs (before : State) (w : World) :
  refs_follow_render (rerender before w).
Proof.
  pose proof (commit_refs w) as (Hv & Hc).
  unfold rerender.
  destruct (Mode_eqb (translateMode before) (translateMode (st (commit w)))).
  - split; assumption.
  - unfold refs_follow_render.
    destruct (effect_refs (exec cleanup_translateMode (commit w))) as (Ev & Ec).
    destruct (cleanup_refs (commit w)) as (Cv & Cc).
    destruct (effect_frame (exec cleanup_translateMode (commit w))) as (Es & _).
    destruct (cleanup_frame (commit w)) as (Cs & _).
    rewrite Ev, Ec, Cv, Cc, Es, Cs. split; assumption.
Qed.

Lemma dispatch_refs (e : Event) (w : World) :
  refs_follow_render w -> refs_follow_render (dispatch e w).
Proof.
  intros Hw. unfold dispatch. destruct (enabled e w); [|exact Hw].
  apply rerender_refs.
Qed.

(** X12: in every state the component reaches from mount both refs are
    attached exactly while the preview is on screen; so whenever the
    capture button can be clicked the video and the canvas are there, and
    the "refs not available" branch of captureImage is never taken from the
    button. *)
Theorem capture_button_finds_refs (synthesis : bool) (es : list Event)
        (h : CanvasHost) :
  let w := run es (mount synthesis) in
  refs_follow_render w
  /\ (enabled (ClickCapture h) w = true ->
      exists video canvas,
        videoRef (env w) = Some video /\ canvasRef (env w) = Some canvas)
  /\ (preview_rendered (st w) = false ->
      videoRef (env w) = None /\ canvasRef (env w) = None).
Proof.
  intros w.
  assert (Hw : refs_follow_render w).
  { apply (run_invariant refs_follow_render dispatch_refs).
    destruct synthesis; split; reflexivity. }
  split; [exact Hw|]. destruct Hw as (Hv & Hc). split.
  - intros En. unfold enabled in En. apply andb_true_iff in En.
    destruct En as (En & _).
    change (capture_button_rendered (st w)) with (preview_rendered (st w)) in En.
    rewrite En in Hv, Hc.
    destruct (videoRef (env w)) as [video|]; [|discriminate].
    destruct (canvasRef (env w)) as [canvas|]; [|discriminate].
    exists video, canvas. split; reflexivity.
  - intros Hp. rewrite Hp in Hv, Hc.
    destruct (videoRef (env w)); [discriminate|].
    destruct (canvasRef (env w)); [discriminate|]. split; reflexivity.
Qed.

Lemma capture_button_finds_refs_witness :
  exists video canvas,
    videoRef (env (run [MediaSettles (inr 7%N)] (mount true))) = Some video
    /\ canvasRef (env (run [MediaSettles (inr 7%N)] (mount true))) = Some canvas.
Proof.
  destruct (capture_button_finds_refs true [MediaSettles (inr 7%N)] host_ok)
    as (_ & H & _).
  apply H. reflexivity.
Defined.

(** X13: a pending mock delay is never cancelled: every event other than
    the timer firing leaves the pending timers in place (a capture may add
    one behind them), whether it is reset, discard or a mode switch; the
    timer firing removes exactly the oldest. *)
Theorem pending_delay_is_never_cancelled (e : Event) (w : World) :
  match e with
  | TimerFires =>
      timers (env w) = [] /\ dispatch e w = w
      \/ exists t, timers (env w) = t :: timers (env (dispatch e w))
  | ClickCapture _ =>
      timers (env (dispatch e w)) = timers (env w)
      \/ timers (env (dispatch e w))
         = timers (env w) ++ [(2000%N, K_captureImage_afterDelay)]
  | _ => timers (env (dispatch e w)) = timers (env w)
  end.
Proof.
  assert (G : e <> TimerFires ->
              timers (env (dispatch e w)) = timers (env w)
              \/ timers (env (dispatch e w))
                 = timers (env (exec (handler e) w))).
  { intros _. unfold dispatch. destruct (enabled e w); [|left; reflexivity].
    right. apply rerender_frame. }
  pose proof (handler_frame_processing e w) as F.
  destruct e;
    try (destruct G as [G | G]; [discriminate | exact G |];
         rewrite G; apply F).
  - (* a capture *)
    destruct G as [G | G]; [discriminate | left; exact G |].
    rewrite G.
    change (exec (handler (ClickCapture h)) w) with (exec (call (captureImage h)) w).
    assert (E : exec (call (captureImage h)) w = exec (captureImage h) w).
    { unfold exec, call. destruct (captureImage h w) as [[[]| |x] w']; reflexivity. }
    rewrite E.
    destruct (captureImage_outcomes h w) as [(H & _) | (H & _)]; auto.
  - (* the timer *)
    clear G F.
    destruct (timers (env w)) as [|[ms []] rest] eqn:Et.
    + left. split; [reflexivity|]. unfold dispatch, enabled. rewrite Et. reflexivity.
    + right. exists (ms, K_captureImage_afterDelay).
      rewrite (dispatch_TimerFires_capture w ms rest Et), commit_timers.
      reflexivity.
Qed.

(** ** What the user sees after an action *)

Lemma dispatch_same_mode (e : Event) (w : World) :
  enabled e w = true ->
  translateMode (st (exec (handler e) w)) = translateMode (st w) ->
  dispatch e w = commit (exec (handler e) w).
Proof.
  intros En Hm. unfold dispatch. rewrite En.
  apply rerender_same_mode. exact Hm.
Qed.

Lemma commit_frame (w : World) :
  streamRef (env (commit w)) = streamRef (env w)
  /\ liveStreams (env (commit w)) = liveStreams (env w)
  /\ pendingMedia (env (commit w)) = pendingMedia (env w)
  /\ console (env (commit w)) = console (env w)
  /\ alerts (env (commit w)) = alerts (env w)
  /\ downloads (env (commit w)) = downloads (env w).
Proof. unfold commit. destruct (preview_rendered (st w)); repeat split. Qed.

(** X14: reset removes the result controls and leaves speech alone: after
    the reset button is clicked the result is empty, the utterance queue
    and the speaking flag are as before, and the speaker, reset and
    settings buttons are off screen, so that clicks on them do nothing.
    Submitting the text right after a reset changes nothing, and a second
    reset neither. *)
Theorem reset_removes_result_controls (w : World) :
  result_controls_rendered (st w) = true ->
  let w' := dispatch ClickReset w in
  translatedText (st w') = []
  /\ utterances w' = utterances w
  /\ isSpeaking (st w') = isSpeaking (st w)
  /\ showSettings (st w') = showSettings (st w)
  /\ dispatch ClickSpeaker w' = w'
  /\ dispatch ClickReset w' = w'
  /\ dispatch ClickToggleSettings w' = w'
  /\ exec handleTextTranslation (exec resetTranslation w) = exec resetTranslation w
  /\ exec resetTranslation (exec resetTranslation w) = exec resetTranslation w.
Proof.
  intros Hr w'.
  assert (E : w' = commit (exec resetTranslation w)).
  { subst w'. rewrite (dispatch_same_mode ClickReset w Hr eq_refl). reflexivity. }
  assert (Ht : translatedText (st w') = []).
  { rewrite E, commit_st. reflexivity. }
  assert (Hoff : result_controls_rendered (st w') = false).
  { unfold result_controls_rendered. rewrite Ht. reflexivity. }
  repeat split.
  - exact Ht.
  - rewrite E. unfold utterances. rewrite commit_speechSynthesis. reflexivity.
  - rewrite E, commit_st. reflexivity.
  - rewrite E, commit_st. reflexivity.
  - unfold dispatch, enabled. rewrite Hoff. reflexivity.
  - unfold dispatch, enabled. rewrite Hoff. reflexivity.
  - unfold dispatch, enabled. rewrite Hoff. reflexivity.
Qed.

Lemma reset_removes_result_controls_witness :
  utterances (dispatch ClickReset w_speaking) = [u_greeting]
  /\ isSpeaking (st (dispatch ClickReset w_speaking)) = true
  /\ dispatch ClickSpeaker (dispatch ClickReset w_speaking)
     = dispatch ClickReset w_speaking.
Proof.
  destruct (reset_removes_result_controls w_speaking eq_refl)
    as (_ & Hq & Hs & _ & Hc & _).
  split; [|split].
  - rewrite Hq. reflexivity.
  - rewrite Hs. reflexivity.
  - exact Hc.
Defined.

(** X15: a successful capture takes the preview off screen: after a click
    on the capture button with a canvas that encodes a non-empty image, the
    image is held, both refs are detached, the capture button is gone and
    the download and discard buttons are there; the stream reference and
    the live streams are untouched. *)
Theorem capture_replaces_preview (w : World) (h : CanvasHost) (url : JSString)
        (video : VideoEl) (canvas : CanvasEl) (now : N) :
  enabled (ClickCapture h) w = true ->
  videoRef (env w) = Some video ->
  canvasRef (env w) = Some canvas ->
  canvas_works h url ->
  truthy url = true ->
  let w' := dispatch (ClickCapture h) w in
  capturedImage (st w') = Some url
  /\ isProcessing (st w') = true
  /\ videoRef (env w') = None
  /\ canvasRef (env w') = None
  /\ enabled (ClickCapture h) w' = false
  /\ enabled ClickDiscard w' = true
  /\ enabled (ClickDownload now) w' = true
  /\ streamRef (env w') = streamRef (env w)
  /\ liveStreams (env w') = liveStreams (env w).
Proof.
  intros En Hv Hc Hw Hu w'.
  assert (Ex : exec (handler (ClickCapture h)) w = after_capture video url w).
  { cbn [handler]. unfold exec, call, captureImage, try_catch.
    rewrite (captureImage_try_ok h w video canvas url Hv Hc Hw). reflexivity. }
  assert (E : w' = commit (after_capture video url w)).
  { subst w'. rewrite (dispatch_same_mode (ClickCapture h) w En).
    - rewrite Ex. reflexivity.
    - rewrite Ex. reflexivity. }
  unfold enabled in En. apply andb_true_iff in En. destruct En as (En & _).
  unfold capture_button_rendered in En.
  apply andb_true_iff in En. destruct En as (En & _).
  apply andb_true_iff in En. destruct En as (Hm & _).
  assert (Hp : preview_rendered (st (after_capture video url w)) = false).
  { unfold preview_rendered, after_capture. cbn. rewrite Hu.
    rewrite andb_false_r. reflexivity. }
  assert (Hst : st w' = st (after_capture video url w)).
  { rewrite E. apply commit_st. }
  destruct (commit_frame (after_capture video url w)) as (Fr & Fl & _).
  repeat split.
  - rewrite Hst. reflexivity.
  - rewrite Hst. reflexivity.
  - rewrite E. unfold commit. rewrite Hp. reflexivity.
  - rewrite E. unfold commit. rewrite Hp. reflexivity.
  - unfold enabled. rewrite Hst.
    change (capture_button_rendered (st (after_capture video url w)))
      with (preview_rendered (st (after_capture video url w))).
    rewrite Hp. reflexivity.
  - unfold enabled, captured_view_rendered. rewrite Hst. cbn. rewrite Hm, Hu.
    reflexivity.
  - unfold enabled, captured_view_rendered. rewrite Hst. cbn. rewrite Hm, Hu.
    reflexivity.
  - rewrite E, Fr. reflexivity.
  - rewrite E, Fl. reflexivity.
Qed.

Lemma capture_replaces_preview_witness :
  videoRef (env (dispatch (ClickCapture host_ok) w_preview)) = None
  /\ enabled ClickDiscard (dispatch (ClickCapture host_ok) w_preview) = true.
Proof.
  destruct (capture_replaces_preview w_preview host_ok
              (js "data:image/jpeg;base64,AAAA")
              {| srcObject := Some 7%N; videoWidth := 640; videoHeight := 480 |}
              {| width := 300; height := 150 |} 0%N
              eq_refl eq_refl eq_refl (conj eq_refl (conj eq_refl eq_refl)) eq_refl)
    as (_ & _ & Hv & _ & _ & Hd & _).
  split; [exact Hv | exact Hd].
Defined.

(** X16: discarding the captured image does not bring the camera picture
    back: with permission held, the click clears the image and mounts a new
    [<video>] that has no stream attached, while [streamRef] and the live
    streams are as before and no new camera request is made; a pending
    delay and the processing flag are untouched as well. *)
Theorem discard_remounts_video_without_stream (w : World) :
  enabled ClickDiscard w = true ->
  hasCameraPermission (st w) = true ->
  videoRef (env w) = None ->
  let w' := dispatch ClickDiscard w in
  capturedImage (st w') = None
  /\ videoRef (env w')
     = Some {| srcObject := None; videoWidth := 0; videoHeight := 0 |}
  /\ streamRef (env w') = streamRef (env w)
  /\ liveStreams (env w') = liveStreams (env w)
  /\ pendingMedia (env w') = pendingMedia (env w)
  /\ timers (env w') = timers (env w)
  /\ isProcessing (st w') = isProcessing (st w)
  /\ translatedText (st w') = translatedText (st w).
Proof.
  intros En Hp Hv w'.
  assert (E : w' = commit {| st := set_capturedImage None (st w); env := env w |}).
  { subst w'. rewrite (dispatch_same_mode ClickDiscard w En eq_refl). reflexivity. }
  unfold enabled, captured_view_rendered in En.
  apply andb_true_iff in En. destruct En as (Hm & _).
  assert (Hr : preview_rendered (set_capturedImage None (st w)) = true).
  { unfold preview_rendered. cbn. rewrite Hm, Hp. reflexivity. }
  rewrite E. unfold commit. cbn [st env]. rewrite Hr, Hv.
  repeat split.
Qed.

Lemma discard_remounts_video_without_stream_witness :
  videoRef (env (dispatch ClickDiscard w_busy))
  = Some {| srcObject := None; videoWidth := 0; videoHeight := 0 |}
  /\ streamRef (env (dispatch ClickDiscard w_busy)) = Some 7%N
  /\ liveStreams (env (dispatch ClickDiscard w_busy)) = [7%N].
Proof.
  destruct (discard_remounts_video_without_stream w_busy eq_refl eq_refl eq_refl)
    as (_ & Hv & Hr & Hl & _).
  split; [exact Hv | split; [exact Hr | exact Hl]].
Defined.

(** ** Camera requests as events *)

Lemma handler_MediaSettles (w : World) (k : MediaContinuation)
      (rest : list MediaContinuation) (r : Exn + StreamId) :
  pendingMedia (env w) = k :: rest ->
  exec (handler (MediaSettles r)) w
  = exec (resume_media k r) {| st := st w; env := set_pendingMedia rest (env w) |}.
Proof.
  intros Hp. unfold exec at 1, call, handler, bind, gets_env. cbn [env].
  rewrite Hp. unfold modify_env. cbn [fst snd st env].
  unfold exec, call. reflexivity.
Qed.

Lemma resume_media_mode (k : MediaContinuation) (r : Exn + StreamId) (w : World) :
  translateMode (st (exec (resume_media k r) w)) = translateMode (st w).
Proof.
  open_world w. destruct k, r as [x|s]; js_unfold; try reflexivity.
  all: destruct videoRef0; reflexivity.
Qed.

(** X17: a request granted while no [<video>] is attached (as on first
    mount, or from the retry button) turns the preview on without a
    picture: permission becomes true, the stream is live, [streamRef] is
    as before, and the [<video>] that the next render mounts has no stream
    attached. *)
Theorem grant_without_video_leaves_preview_blank (w : World)
        (k : MediaContinuation) (rest : list MediaContinuation) (s : StreamId) :
  translateMode (st w) = camera ->
  truthy_opt (capturedImage (st w)) = false ->
  videoRef (env w) = None ->
  pendingMedia (env w) = k :: rest ->
  let w' := dispatch (MediaSettles (inr s)) w in
  hasCameraPermission (st w') = true
  /\ videoRef (env w')
     = Some {| srcObject := None; videoWidth := 0; videoHeight := 0 |}
  /\ streamRef (env w') = streamRef (env w)
  /\ liveStreams (env w') = liveStreams (env w) ++ [s]
  /\ pendingMedia (env w') = rest.
Proof.
  intros Hm Hc Hv Hp w'.
  assert (En : enabled (MediaSettles (inr s)) w = true).
  { unfold enabled. rewrite Hp. reflexivity. }
  pose proof (handler_MediaSettles w k rest (inr s) Hp) as Ex.
  pose proof (granted_without_video k
                {| st := st w; env := set_pendingMedia rest (env w) |} s Hv) as G.
  unfold exec at 2 in Ex. rewrite G in Ex. cbn [snd st env] in Ex.
  assert (E : w' = commit (exec (handler (MediaSettles (inr s))) w)).
  { subst w'. apply (dispatch_same_mode _ w En). rewrite Ex. reflexivity. }
  rewrite Ex in E. rewrite E. unfold commit, preview_rendered. cbn.
  rewrite Hm, Hc, Hv. cbn. repeat split.
Qed.

Lemma grant_without_video_leaves_preview_blank_witness :
  videoRef (env (dispatch (MediaSettles (inr 7%N)) (mount true)))
  = Some {| srcObject := None; videoWidth := 0; videoHeight := 0 |}
  /\ liveStreams (env (dispatch (MediaSettles (inr 7%N)) (mount true))) = [7%N].
Proof.
  destruct (grant_without_video_leaves_preview_blank (mount true)
              K_setupCamera_afterGetUserMedia [] 7%N
              eq_refl eq_refl eq_refl eq_refl) as (_ & Hv & _ & Hl & _).
  split; [exact Hv | exact Hl].
Defined.

(** X18: a camera request rejected in the effect is caught: the handler
    completes normally, nothing is acquired, permission is marked denied,
    the error is logged and no alert is raised; the retry button is then on
    screen, and a click on it issues one new camera request. *)
Theorem denied_request_offers_retry (w : World) (e : Exn)
        (rest : list MediaContinuation) :
  translateMode (st w) = camera ->
  truthy_opt (capturedImage (st w)) = false ->
  pendingMedia (env w) = K_setupCamera_afterGetUserMedia :: rest ->
  let w' := dispatch (MediaSettles (inl e)) w in
  fst (call (handler (MediaSettles (inl e))) w) = Normal tt
  /\ hasCameraPermission (st w') = false
  /\ liveStreams (env w') = liveStreams (env w)
  /\ streamRef (env w') = streamRef (env w)
  /\ console (env w')
     = console (env w) ++ [ConsoleError (js "Camera access denied:") (Some e)]
  /\ alerts (env w') = alerts (env w)
  /\ videoRef (env w') = None
  /\ enabled ClickEnableCamera w' = true
  /\ pendingMedia (env (dispatch ClickEnableCamera w'))
     = rest ++ [K_requestCameraPermission_afterGetUserMedia].
Proof.
  intros Hm Hc Hp w'.
  assert (En : enabled (MediaSettles (inl e)) w = true).
  { unfold enabled. rewrite Hp. reflexivity. }
  pose proof (handler_MediaSettles w _ rest (inl e) Hp) as Ex.
  assert (E : w' = commit (exec (handler (MediaSettles (inl e))) w)).
  { subst w'. apply (dispatch_same_mode _ w En). rewrite Ex.
    exact (resume_media_mode K_setupCamera_afterGetUserMedia (inl e)
             {| st := st w; env := set_pendingMedia rest (env w) |}). }
  rewrite Ex in E. clear Ex En.
  assert (Hs : st w' = set_hasCameraPermission false (st w)).
  { rewrite E, commit_st. reflexivity. }
  assert (Hen : enabled ClickEnableCamera w' = true).
  { unfold enabled, enable_camera_rendered. rewrite Hs. cbn. rewrite Hm, Hc.
    reflexivity. }
  assert (Hpre : preview_rendered
                   (st (exec (resume_media K_setupCamera_afterGetUserMedia (inl e))
                          {| st := st w; env := set_pendingMedia rest (env w) |}))
                 = false).
  { unfold preview_rendered. cbn. rewrite andb_false_r. reflexivity. }
  destruct (commit_frame
              (exec (resume_media K_setupCamera_afterGetUserMedia (inl e))
                    {| st := st w; env := set_pendingMedia rest (env w) |}))
    as (Fr & Fl & Fp & Fc & Fa & _).
  repeat split.
  - unfold call, handler, bind, gets_env. cbn [env]. rewrite Hp. reflexivity.
  - rewrite Hs. reflexivity.
  - rewrite E, Fl. reflexivity.
  - rewrite E, Fr. reflexivity.
  - rewrite E, Fc. reflexivity.
  - rewrite E, Fa. reflexivity.
  - rewrite E. unfold commit. rewrite Hpre. reflexivity.
  - exact Hen.
  - rewrite (dispatch_same_mode ClickEnableCamera w' Hen eq_refl).
    destruct (commit_frame (exec (handler ClickEnableCamera) w')) as (_ & _ & Gp & _).
    rewrite Gp. cbn. rewrite E, Fp. reflexivity.
Qed.

Lemma denied_request_offers_retry_witness :
  hasCameraPermission (st (dispatch (MediaSettles (inl (js "NotAllowedError")))
                                    (mount true))) = false
  /\ pendingMedia
       (env (dispatch ClickEnableCamera
               (dispatch (MediaSettles (inl (js "NotAllowedError"))) (mount true))))
     = [K_requestCameraPermission_afterGetUserMedia].
Proof.
  destruct (denied_request_offers_retry (mount true) (js "NotAllowedError") []
              eq_refl eq_refl eq_refl) as (_ & Hp & _ & _ & _ & _ & _ & _ & Hr).
  split; [exact Hp | exact Hr].
Defined.

(** X19: a rejected retry is caught: the handler completes normally and
    nothing is acquired; it logs the error and raises one alert, and unlike
    the effect it leaves the whole React state as it was, the permission
    flag included; the retry button is on screen afterwards exactly if it
    was before. *)
Theorem denied_retry_alerts (w : World) (e : Exn) (rest : list MediaContinuation) :
  pendingMedia (env w) = K_requestCameraPermission_afterGetUserMedia :: rest ->
  let w' := dispatch (MediaSettles (inl e)) w in
  fst (call (handler (MediaSettles (inl e))) w) = Normal tt
  /\ st w' = st w
  /\ enabled ClickEnableCamera w' = enabled ClickEnableCamera w
  /\ liveStreams (env w') = liveStreams (env w)
  /\ streamRef (env w') = streamRef (env w)
  /\ pendingMedia (env w') = rest
  /\ console (env w')
     = console (env w) ++ [ConsoleError (js "Camera access error:") (Some e)]
  /\ alerts (env w')
     = alerts (env w)
       ++ [js "Camera access denied. Please enable camera access in your browser settings."].
Proof.
  intros Hp w'.
  assert (En : enabled (MediaSettles (inl e)) w = true).
  { unfold enabled. rewrite Hp. reflexivity. }
  pose proof (handler_MediaSettles w _ rest (inl e) Hp) as Ex.
  assert (E : w' = commit (exec (handler (MediaSettles (inl e))) w)).
  { subst w'. apply (dispatch_same_mode _ w En). rewrite Ex. reflexivity. }
  rewrite Ex in E. clear Ex En.
  assert (Hs : st w' = st w).
  { rewrite E, commit_st. reflexivity. }
  destruct (commit_frame
              (exec (resume_media K_requestCameraPermission_afterGetUserMedia (inl e))
                    {| st := st w; env := set_pendingMedia rest (env w) |}))
    as (Fr & Fl & Fp & Fc & Fa & _).
  repeat split.
  - unfold call, handler, bind, gets_env. cbn [env]. rewrite Hp. reflexivity.
  - exact Hs.
  - unfold enabled. rewrite Hs. reflexivity.
  - rewrite E, Fl. reflexivity.
  - rewrite E, Fr. reflexivity.
  - rewrite E, Fp. reflexivity.
  - rewrite E, Fc. reflexivity.
  - rewrite E, Fa. reflexivity.
Qed.

Lemma denied_retry_alerts_witness :
  alerts (env (dispatch (MediaSettles (inl (js "NotAllowedError")))
                 (run [MediaSettles (inl (js "NotAllowedError")); ClickEnableCamera]
                      (mount true))))
  = [js "Camera access denied. Please enable camera access in your browser settings."].
Proof.
  destruct (denied_retry_alerts
              (run [MediaSettles (inl (js "NotAllowedError")); ClickEnableCamera]
                   (mount true))
              (js "NotAllowedError") [] eq_refl) as (_ & _ & _ & _ & _ & _ & _ & Ha).
  exact Ha.
Defined.

(** ** Mode switches *)

(** X20: a click on the tab of the current mode runs neither cleanup nor
    effect: no camera request is issued, no stream is stopped and speech
    is not cancelled.  Leaving camera mode stops the stream in [streamRef],
    empties the speech queue, detaches both refs and issues no request;
    entering camera mode runs the same cleanup and issues exactly one new
    request.  No switch touches the permission flag, the result, the
    captured image or the speaking flag. *)
Theorem mode_switch_effects (w : World) :
  (translateMode (st w) = camera ->
   st (dispatch ClickCameraTab w) = st w
   /\ pendingMedia (env (dispatch ClickCameraTab w)) = pendingMedia (env w)
   /\ liveStreams (env (dispatch ClickCameraTab w)) = liveStreams (env w)
   /\ speechSynthesis (env (dispatch ClickCameraTab w)) = speechSynthesis (env w))
  /\ (translateMode (st w) = text ->
      st (dispatch ClickTextTab w) = st w
      /\ pendingMedia (env (dispatch ClickTextTab w)) = pendingMedia (env w)
      /\ liveStreams (env (dispatch ClickTextTab w)) = liveStreams (env w)
      /\ speechSynthesis (env (dispatch ClickTextTab w)) = speechSynthesis (env w))
  /\ (translateMode (st w) = camera ->
      st (dispatch ClickTextTab w) = set_translateMode text (st w)
      /\ pendingMedia (env (dispatch ClickTextTab w)) = pendingMedia (env w)
      /\ utterances (dispatch ClickTextTab w) = []
      /\ videoRef (env (dispatch ClickTextTab w)) = None
      /\ canvasRef (env (dispatch ClickTextTab w)) = None
      /\ forall s, streamRef (env w) = Some s ->
           ~ In s (liveStreams (env (dispatch ClickTextTab w))))
  /\ (translateMode (st w) = text ->
      st (dispatch ClickCameraTab w) = set_translateMode camera (st w)
      /\ pendingMedia (env (dispatch ClickCameraTab w))
         = pendingMedia (env w) ++ [K_setupCamera_afterGetUserMedia]
      /\ utterances (dispatch ClickCameraTab w) = []
      /\ forall s, streamRef (env w) = Some s ->
           ~ In s (liveStreams (env (dispatch ClickCameraTab w)))).
Proof.
  assert (Same : forall e m, handler e = setTranslateMode m ->
                 enabled e w = true -> translateMode (st w) = m ->
                 dispatch e w = commit w).
  { intros e m He En Hm.
    rewrite (dispatch_same_mode e w En); rewrite He.
    - f_equal. open_world w. cbn in Hm. subst. reflexivity.
    - cbn. symmetry. exact Hm. }
  destruct (commit_frame w) as (Fr & Fl & Fp & _).
  split; [|split; [|split]]; intros Hm.
  - rewrite (Same ClickCameraTab camera eq_refl eq_refl Hm).
    rewrite commit_st, Fp, Fl, commit_speechSynthesis. repeat split.
  - rewrite (Same ClickTextTab text eq_refl eq_refl Hm).
    rewrite commit_st, Fp, Fl, commit_speechSynthesis. repeat split.
  - open_world w. cbn in Hm. subst.
    unfold dispatch, enabled, rerender, commit, preview_rendered,
      effect_translateMode, cleanup_translateMode.
    js_unfold.
    destruct streamRef0 as [r|], speechSynthesis0; cbn; repeat split;
      try (intros s [= ->]; apply not_In_filter_neq); try discriminate.
  - open_world w. cbn in Hm. subst.
    unfold dispatch, enabled, rerender, commit, preview_rendered,
      effect_translateMode, cleanup_translateMode.
    js_unfold.
    destruct (negb (truthy_opt capturedImage0) && hasCameraPermission0);
      destruct videoRef0, canvasRef0, streamRef0 as [r|], speechSynthesis0;
      cbn; repeat split;
      try (intros s [= ->]; apply not_In_filter_neq); try discriminate.
Qed.

Lemma mode_switch_effects_witness :
  liveStreams (env (dispatch ClickTextTab w_preview)) = []
  /\ pendingMedia (env (dispatch ClickCameraTab w_hello))
     = [K_setupCamera_afterGetUserMedia]
  /\ pendingMedia (env (dispatch ClickCameraTab w_preview)) = [].
Proof.
  destruct (mode_switch_effects w_preview) as (Hsame & _ & _ & _).
  destruct (mode_switch_effects w_hello) as (_ & _ & _ & Henter).
  split; [reflexivity | split].
  - exact (proj1 (proj2 (Henter eq_refl))).
  - exact (proj1 (proj2 (Hsame eq_refl))).
Defined.

(** ** Text input *)

Lemma handleTextTranslation_run (w : World) :
  (trim (inputText (st w)) <> [] ->
   call handleTextTranslation w
   = (Normal tt, {| st := set_translatedText (inputText (st w)) (st w);
                    env := env w |}))
  /\ (forallb isWhiteSpace (inputText (st w)) = true ->
      call handleTextTranslation w = (Normal tt, w)).
Proof.
  unfold handleTextTranslation, call, bind, gets, when. cbn [fst snd].
  split; intros H.
  - apply truthy_true in H. rewrite H. reflexivity.
  - apply trim_nil in H. rewrite H. reflexivity.
Qed.

(** X21: in text mode, typing a text and pressing the process button shows
    that text as the result when it has a character that is not
    whitespace, and leaves the result as it was otherwise; either way the
    typed text stays in the input box. *)
Theorem typed_text_is_processed (w : World) (v : JSString) :
  translateMode (st w) = text ->
  let w' := dispatch ClickProcessText (dispatch (ChangeInput v) w) in
  inputText (st w') = v
  /\ (forallb isWhiteSpace v = false -> translatedText (st w') = v)
  /\ (forallb isWhiteSpace v = true -> translatedText (st w') = translatedText (st w)).
Proof.
  intros Hm w'.
  assert (En : enabled (ChangeInput v) w = true).
  { unfold enabled, text_tab_rendered. rewrite Hm. reflexivity. }
  assert (E1 : dispatch (ChangeInput v) w
               = commit {| st := set_inputText v (st w); env := env w |}).
  { rewrite (dispatch_same_mode (ChangeInput v) w En eq_refl). reflexivity. }
  set (w1 := dispatch (ChangeInput v) w) in *.
  assert (Hs1 : st w1 = set_inputText v (st w)).
  { rewrite E1. apply commit_st. }
  assert (En1 : enabled ClickProcessText w1 = true).
  { unfold enabled, text_tab_rendered. rewrite Hs1. cbn. rewrite Hm. reflexivity. }
  assert (Hin : inputText (st w1) = v) by (rewrite Hs1; reflexivity).
  assert (Mode : translateMode (st (exec (handler ClickProcessText) w1))
                 = translateMode (st w1)).
  { cbn [handler]. unfold exec, call, handleTextTranslation, bind, gets, when.
    cbn [fst snd]. destruct (truthy (trim (inputText (st w1)))); reflexivity. }
  assert (E2 : w' = commit (exec (handler ClickProcessText) w1)).
  { subst w'. apply (dispatch_same_mode _ w1 En1 Mode). }
  assert (Ex : exec (handler ClickProcessText) w1 = exec handleTextTranslation w1).
  { cbn [handler]. unfold exec, call.
    destruct (handleTextTranslation w1) as [[[]| |x] w2]; reflexivity. }
  rewrite Ex in E2.
  destruct (handleTextTranslation_run w1) as (Hyes & Hno).
  repeat split.
  - rewrite E2, commit_st.
    destruct (forallb isWhiteSpace v) eqn:Hw.
    + rewrite Hin in Hno. unfold exec. rewrite (Hno Hw). exact Hin.
    + unfold exec. rewrite Hyes; [exact Hin|].
      rewrite Hin. intros Ht. apply trim_nil in Ht. congruence.
  - intros Hw. rewrite E2, commit_st. unfold exec. rewrite Hyes.
    + cbn. exact Hin.
    + rewrite Hin. intros Ht. apply trim_nil in Ht. congruence.
  - intros Hw. rewrite E2, commit_st. unfold exec.
    rewrite Hin in Hno. rewrite (Hno Hw). cbn [snd]. rewrite Hs1. reflexivity.
Qed.

Lemma typed_text_is_processed_witness :
  translatedText
    (st (dispatch ClickProcessText (dispatch (ChangeInput (js " ok ")) w_blank)))
  = js " ok ".
Proof.
  destruct (typed_text_is_processed w_blank (js " ok ") eq_refl) as (_ & H & _).
  apply H. reflexivity.
Defined.

(** ** The delayed result *)

(** Events other than a capture and the timer keep the pending timers. *)
Lemma pending_timers_kept (e : Event) (w : World) :
  match e with
  | ClickCapture _ | TimerFires => True
  | _ => timers (env (dispatch e w)) = timers (env w)
  end.
Proof.
  pose proof (handler_frame_processing e w) as F.
  destruct (rerender_frame (st w) (exec (handler e) w)) as (_ & Ht & _).
  unfold dispatch.
  destruct e; trivial; destruct (enabled _ w); try reflexivity;
    rewrite Ht; apply F.
Qed.

(** X22: the delayed completion writes its result whatever happened in
    between: with a delay pending, after any one event other than a capture
    or the timer itself (reset, discard, a switch to text mode, typing),
    the timer still fires, sets the result to the sample string and clears
    the processing flag, and changes no other state field. *)
Theorem stale_delay_still_writes (e : Event) (w : World) (ms : N)
        (rest : list (N * TimerContinuation)) :
  timers (env w) = (ms, K_captureImage_afterDelay) :: rest ->
  match e with ClickCapture _ | TimerFires => False | _ => True end ->
  let w1 := dispatch e w in
  let w2 := dispatch TimerFires w1 in
  st w2 = set_isProcessing false (set_translatedText SAMPLE_TRANSLATION (st w1))
  /\ timers (env w2) = rest.
Proof.
  intros Ht He w1 w2.
  assert (Ht1 : timers (env w1) = (ms, K_captureImage_afterDelay) :: rest).
  { pose proof (pending_timers_kept e w) as K.
    destruct e; try contradiction; subst w1; rewrite K; exact Ht. }
  subst w2. rewrite (dispatch_TimerFires_capture w1 ms rest Ht1).
  rewrite commit_st, commit_timers. split; reflexivity.
Qed.

Lemma stale_delay_still_writes_witness :
  translatedText (st (dispatch TimerFires (dispatch ClickReset w_busy)))
  = js "Hello! How are you? (Sample Sign Language Translation)"
  /\ capturedImage (st (dispatch TimerFires (dispatch ClickReset w_busy))) = None.
Proof.
  destruct (stale_delay_still_writes ClickReset w_busy 2000%N [] eq_refl I)
    as (Hs & _).
  rewrite Hs. split; reflexivity.
Defined.

(** X23: a capture that fails stores nothing: when the canvas gives no
    context or throws while drawing or encoding, the captured image and the
    pending timers are as before (no delay is armed), the canvas has
    already been resized to the video, and the previous result is replaced
    by the error text. *)
Theorem failed_capture_stores_nothing (w : World) (h : CanvasHost)
        (video : VideoEl) (canvas : CanvasEl) :
  videoRef (env w) = Some video ->
  canvasRef (env w) = Some canvas ->
  (forall url, ~ canvas_works h url) ->
  let w' := exec (captureImage h) w in
  capturedImage (st w') = capturedImage (st w)
  /\ timers (env w') = timers (env w)
  /\ translatedText (st w') = js "Error in translation"
  /\ isProcessing (st w') = false
  /\ canvasRef (env w')
     = Some {| width := videoWidth video; height := videoHeight video |}
  /\ exists x, last (console (env w')) (ConsoleLog [])
               = ConsoleError (js "Image capture error:") (Some x).
Proof.
  intros Hv Hc Hbad w'. subst w'.
  open_world w. cbn in Hv, Hc. subst.
  destruct h as [g d u]. unfold canvas_works in Hbad. cbn in Hbad.
  js_unfold.
  destruct g.
  - destruct d as [x|].
    + cbn. repeat split. exists x. rewrite last_last. reflexivity.
    + destruct u as [x|url].
      * cbn. repeat split. exists x. rewrite last_last. reflexivity.
      * exfalso. apply (Hbad url). repeat split.
  - cbn. repeat split. exists TypeError. rewrite last_last. reflexivity.
Qed.

Lemma failed_capture_stores_nothing_witness :
  capturedImage (st (exec (captureImage host_tainted) w_preview)) = None
  /\ timers (env (exec (captureImage host_tainted) w_preview)) = [].
Proof.
  destruct (failed_capture_stores_nothing w_preview host_tainted
              {| srcObject := Some 7%N; videoWidth := 640; videoHeight := 480 |}
              {| width := 300; height := 150 |} eq_refl eq_refl) as (Hi & Ht & _).
  - intros url (_ & _ & H). discriminate.
  - split; [exact Hi | exact Ht].
Defined.

(** ** Two more invariants of the reachable states *)

Lemma dispatch_processing_matches_delay (e : Event) (w : World) :
  processing_matches_delay w -> processing_matches_delay (dispatch e w).
Proof.
  unfold processing_matches_delay, delays_in_flight. intros Hw.
  unfold dispatch. destruct (enabled e w) eqn:En; [|exact Hw].
  destruct (rerender_frame (st w) (exec (handler e) w)) as (Hs & Ht & _).
  rewrite Hs, Ht. clear Hs Ht.
  pose proof (handler_frame_processing e w) as F.
  destruct e; try (destruct F as (Ft & Fp); rewrite Ft, Fp; exact Hw); clear F.
  - (* the capture button *)
    unfold enabled, capture_button_disabled in En.
    apply andb_true_iff in En. destruct En as (_ & En).
    apply negb_true_iff in En. rewrite En in Hw.
    change (exec (handler (ClickCapture h)) w) with (exec (call (captureImage h)) w).
    assert (E : exec (call (captureImage h)) w = exec (captureImage h) w).
    { unfold exec, call. destruct (captureImage h w) as [[[]| |x] w']; reflexivity. }
    rewrite E.
    destruct (captureImage_outcomes h w) as [(Ht & Hp) | (Ht & [Hp | Hp])];
      rewrite Ht, Hp, ?En, ?length_app, ?Hw; reflexivity.
  - (* the timer *)
    unfold enabled in En.
    destruct (timers (env w)) as [|[ms []] rest] eqn:Et; [discriminate|].
    assert (E : exec (handler TimerFires) w
                = {| st := set_isProcessing false
                             (set_translatedText SAMPLE_TRANSLATION (st w));
                     env := set_timers rest (env w) |}).
    { unfold exec, call, handler, bind, gets_env. cbn [env]. rewrite Et. reflexivity. }
    rewrite E. cbn in *.
    destruct (isProcessing (st w)); [|discriminate].
    injection Hw as Hw. exact Hw.
Qed.

(** X24: in every state the component reaches from mount the processing
    flag tells exactly whether a mock delay is pending: one delay while it
    is true, none while it is false.  The flag is therefore never left set
    without a timer that will clear it. *)
Theorem processing_flag_matches_delay (synthesis : bool) (es : list Event) :
  let w := run es (mount synthesis) in
  (isProcessing (st w) = true <-> delays_in_flight w = 1%nat)
  /\ (isProcessing (st w) = false <-> delays_in_flight w = 0%nat).
Proof.
  intros w.
  assert (H : processing_matches_delay w).
  { apply (run_invariant processing_matches_delay dispatch_processing_matches_delay).
    destruct synthesis; reflexivity. }
  unfold processing_matches_delay in H. rewrite H.
  destruct (isProcessing (st w)); repeat split; intros; congruence.
Qed.

Lemma processing_flag_matches_delay_witness :
  delays_in_flight
    (run [MediaSettles (inr 7%N); ClickCapture host_ok; ClickDiscard] (mount true))
  = 1%nat.
Proof.
  destruct (processing_flag_matches_delay true
              [MediaSettles (inr 7%N); ClickCapture host_ok; ClickDiscard])
    as (H & _).
  apply H. reflexivity.
Defined.

(** Only a settled camera request and the video's metadata touch the video
    element or [streamRef]. *)
Lemma handler_frame_refs (e : Event) (w : World) :
  match e with
  | MediaSettles _ | VideoMetadata _ _ => True
  | _ => videoRef (env (exec (handler e) w)) = videoRef (env w)
         /\ streamRef (env (exec (handler e) w)) = streamRef (env w)
  end.
Proof.
  destruct e; trivial; open_world w; js_unfold.
  all: try (split; reflexivity).
  - destruct videoRef0, canvasRef0, h as [[] [d|] [x|u]]; split; reflexivity.
  - destruct capturedImage0 as [[|c i]|]; split; reflexivity.
  - destruct (truthy (trim inputText0)); split; reflexivity.
  - destruct isSpeaking0; cbn.
    + destruct speechSynthesis0; split; reflexivity.
    + destruct (truthy translatedText0), speechSynthesis0; split; reflexivity.
  - destruct timers0 as [|[ms []] ts]; split; reflexivity.
  - destruct speechSynthesis0 as [[|u us]|]; split; reflexivity.
  - destruct speechSynthesis0 as [[|u us]|]; split; reflexivity.
Qed.

Lemma commit_tracked (w : World) :
  preview_shows_tracked_stream w -> preview_shows_tracked_stream (commit w).
Proof.
  unfold preview_shows_tracked_stream, commit. intros Hw v.
  destruct (preview_rendered (st w)); cbn.
  - destruct (videoRef (env w)) as [v0|] eqn:Ev.
    + intros [= <-]. apply Hw. reflexivity.
    + intros [= <-]. left. reflexivity.
  - discriminate.
Qed.

Lemma rerender_tracked (before : State) (w : World) :
  preview_shows_tracked_stream w ->
  preview_shows_tracked_stream (rerender before w).
Proof.
  intros Hw. apply commit_tracked in Hw. unfold rerender.
  destruct (Mode_eqb (translateMode before) (translateMode (st (commit w))));
    [exact Hw|].
  unfold preview_shows_tracked_stream in *.
  destruct (effect_refs (exec cleanup_translateMode (commit w))) as (Ev & _).
  destruct (cleanup_refs (commit w)) as (Cv & _).
  rewrite Ev, Cv.
  assert (Hr : streamRef (env (exec effect_translateMode
                                 (exec cleanup_translateMode (commit w))))
               = streamRef (env (commit w))).
  { rewrite <- (cleanup_streamRef (commit w)).
    generalize (exec cleanup_translateMode (commit w)). intros w0.
    open_world w0. unfold effect_translateMode. js_unfold.
    destruct translateMode0; reflexivity. }
  rewrite Hr. exact Hw.
Qed.

Lemma dispatch_tracked (e : Event) (w : World) :
  preview_shows_tracked_stream w -> preview_shows_tracked_stream (dispatch e w).
Proof.
  intros Hw. unfold dispatch. destruct (enabled e w) eqn:En; [|exact Hw].
  apply rerender_tracked.
  pose proof (handler_frame_refs e w) as F.
  unfold preview_shows_tracked_stream in *.
  destruct e; try (destruct F as (Fv & Fr); rewrite Fv, Fr; exact Hw); clear F.
  - (* a camera request settles *)
    unfold enabled in En.
    destruct (pendingMedia (env w)) as [|k rest] eqn:Ep; [discriminate|].
    rewrite (handler_MediaSettles w k rest r Ep).
    destruct r as [x|s].
    + assert (E : videoRef (env (exec (resume_media k (inl x))
                     {| st := st w; env := set_pendingMedia rest (env w) |}))
                  = videoRef (env w)
                  /\ streamRef (env (exec (resume_media k (inl x))
                       {| st := st w; env := set_pendingMedia rest (env w) |}))
                     = streamRef (env w)).
      { destruct k; split; reflexivity. }
      destruct E as (Ev & Er). rewrite Ev, Er. exact Hw.
    + destruct (videoRef (env w)) as [v0|] eqn:Ev.
      * unfold exec.
        rewrite (granted_with_video k
                   {| st := st w; env := set_pendingMedia rest (env w) |} v0 s Ev).
        cbn. intros v [= <-]. right. reflexivity.
      * unfold exec.
        rewrite (granted_without_video k
                   {| st := st w; env := set_pendingMedia rest (env w) |} s Ev).
        cbn. rewrite Ev. discriminate.
  - (* the video reports its size *)
    open_world w. js_unfold. destruct videoRef0 as [v0|]; cbn; [|discriminate].
    intros v [= <-]. cbn. apply Hw. reflexivity.
Qed.

(** X25: in every state the component reaches from mount, the [<video>] on
    screen shows either no stream or the very stream held in [streamRef],
    the one the cleanup stops; it never shows another. *)
Theorem preview_stream_is_tracked (synthesis : bool) (es : list Event)
        (v : VideoEl) (s : StreamId) :
  videoRef (env (run es (mount synthesis))) = Some v ->
  srcObject v = Some s ->
  streamRef (env (run es (mount synthesis))) = Some s.
Proof.
  intros Hv Hs.
  assert (H : preview_shows_tracked_stream (run es (mount synthesis))).
  { apply (run_invariant preview_shows_tracked_stream dispatch_tracked).
    destruct synthesis; intros v0; discriminate. }
  destruct (H v Hv) as [H0 | H0].
  - congruence.
  - rewrite <- H0. exact Hs.
Qed.

Lemma preview_stream_is_tracked_witness :
  streamRef (env (run [MediaSettles (inr 7%N); ClickTextTab; ClickCameraTab;
                       MediaSettles (inr 8%N)] (mount true)))
  = Some 8%N.
Proof.
  apply (preview_stream_is_tracked true
           [MediaSettles (inr 7%N); ClickTextTab; ClickCameraTab;
            MediaSettles (inr 8%N)]
           {| srcObject := Some 8%N; videoWidth := 0; videoHeight := 0 |} 8%N);
    reflexivity.
Defined.

(** Why no bound on the queue is stated for all reachable states: the error
    event of a cancelled utterance arrives late.  Stop, start again, and
    the late event clears the flag while the second utterance is queued;
    the next click on the speaker button then runs playback start and a
    second utterance is queued behind it. *)
Example late_error_event_allows_second_utterance :
  let w := run [ClickTextTab; ChangeInput (js "Hi"); ClickProcessText;
                ClickSpeaker; ClickSpeaker; ClickSpeaker;
                CancelledUtteranceErrors; ClickSpeaker]
               (mount true) in
  utterances w = [u_greeting; u_greeting] /\ cancelled (env w) = [].
Proof. repeat split. Qed.
